(** * NeighborFit: the compatibility scoring engine

    A shallow embedding of [MatchingAlgorithm] (server, services/matchingAlgorithm.ts),
    of the matching route (server, routes/matching.ts) and of the neighborhood
    list filter of the client (pages/NeighborhoodsPage.tsx).

    JavaScript numbers are IEEE 754 binary64 values.  The scoring code is written
    once, over an interface [JSNumber] of the operations it uses, and read at two
    instances:

    - [F64.t], binary64 itself (the executable specification [SpecFloat] of the
      standard library, [prec = 53], [emax = 1024]): rounding to nearest-even,
      signed zeros, infinities and NaN as the engine computes them.  Concrete
      inputs are evaluated here.
    - [Exact.xnum], rationals extended with the infinities and NaN: the same
      special-value rules, no rounding error.  Algebraic laws of the aggregate
      (bounds, monotonicity, means) are proved here. *)

From Stdlib Require Import ZArith QArith Qround Qminmax Qcanon Bool List String Ascii Lia Lqa.
From Stdlib Require Import Floats.SpecFloat.
Import ListNotations.
Close Scope Qc_scope.

Set Implicit Arguments.

(** ** The number interface *)

Class JSNumber (num : Type) : Type := {
  lit : Q -> num;                      (* a numeric literal *)
  add : num -> num -> num;
  sub : num -> num -> num;
  mul : num -> num -> num;
  div : num -> num -> num;
  ltb : num -> num -> bool;            (* a < b *)
  leb : num -> num -> bool;            (* a <= b *)
  ToBoolean : num -> bool;             (* truthiness: false at 0, -0 and NaN *)
  Number_isFinite : num -> bool;
  Math_max : num -> num -> num;
  Math_min : num -> num -> num;
  Math_round : num -> num
}.

Declare Scope js_scope.
Delimit Scope js_scope with js.
Notation "a + b" := (add a b) : js_scope.
Notation "a - b" := (sub a b) : js_scope.
Notation "a * b" := (mul a b) : js_scope.
Notation "a / b" := (div a b) : js_scope.
Notation "a <? b" := (ltb a b) : js_scope.
Notation "a <=? b" := (leb a b) : js_scope.
Notation "a >? b" := (ltb b a) : js_scope.
Notation "a >=? b" := (leb b a) : js_scope.
Notation "$ q" := (lit q%Q) (at level 1, q constr at level 0, format "$ q") : js_scope.

(** ** Instance 1: IEEE 754 binary64 *)

Module F64.

Definition prec : Z := 53.
Definition emax : Z := 1024.

Definition t : Type := spec_float.

Definition NaN : t := S754_nan.
Definition Infinity : t := S754_infinity false.

(** The double nearest to an integer (the integer itself below [2^53]). *)
Definition of_Z (z : Z) : t := binary_normalize prec emax z 0 false.

(** A decimal literal [n/d] denotes the double nearest to the rational it
    writes: the correctly rounded quotient of the two integers. *)
Definition of_Q (q : Q) : t :=
  match Qnum q with
  | Z0 => S754_zero false
  | Zpos n => SFdiv prec emax (S754_finite false n 0) (S754_finite false (Qden q) 0)
  | Zneg n => SFdiv prec emax (S754_finite true n 0) (S754_finite false (Qden q) 0)
  end.

(** The rational a finite double stands for. *)
Definition to_Q (x : t) : option Q :=
  match x with
  | S754_zero _ => Some 0%Q
  | S754_finite s m e =>
      let v := inject_Z (cond_Zopp s (Zpos m)) in
      Some (Qred (if (0 <=? e)%Z then v * inject_Z (2 ^ e) else v / inject_Z (2 ^ (- e))))
  | _ => None
  end.

Definition is_nan (x : t) : bool :=
  match x with S754_nan => true | _ => false end.

Definition truthy (x : t) : bool :=
  match x with
  | S754_zero _ | S754_nan => false
  | _ => true
  end.

Definition is_finite (x : t) : bool :=
  match x with
  | S754_zero _ | S754_finite _ _ _ => true
  | _ => false
  end.

Definition is_zero (x : t) : bool :=
  match x with S754_zero _ => true | _ => false end.

(** [Math.max]: NaN if either argument is NaN; [+0] is larger than [-0]. *)
Definition max (a b : t) : t :=
  match SFcompare a b with
  | None => S754_nan
  | Some Lt => b
  | Some Gt => a
  | Some Eq =>
      match a, b with
      | S754_zero true, S754_zero false => b
      | _, _ => a
      end
  end.

Definition min (a b : t) : t :=
  match SFcompare a b with
  | None => S754_nan
  | Some Lt => a
  | Some Gt => b
  | Some Eq =>
      match a, b with
      | S754_zero false, S754_zero true => b
      | _, _ => a
      end
  end.

(** [Math.round]: the nearest integer, ties towards [+Infinity]; the sign of
    a zero result is the sign of the argument; NaN, infinities, zeros and
    integral values are returned unchanged. *)
Definition round (x : t) : t :=
  match x with
  | S754_finite s m e =>
      if (0 <=? e)%Z then x
      else
        let k := Z.opp e in
        let v := cond_Zopp s (Zpos m) in
        let n := ((2 * v + 2 ^ k) / 2 ^ (k + 1))%Z in
        if (n =? 0)%Z then S754_zero s else of_Z n
  | _ => x
  end.

#[global] Instance number : JSNumber t := {
  lit := of_Q;
  add := SFadd prec emax;
  sub := SFsub prec emax;
  mul := SFmul prec emax;
  div := SFdiv prec emax;
  ltb := SFltb;
  leb := SFleb;
  ToBoolean := truthy;
  Number_isFinite := is_finite;
  Math_max := max;
  Math_min := min;
  Math_round := round
}.

End F64.

(** ** Instance 2: exact extended rationals

    The arithmetic the formulas of the specification are written in: a finite
    value is a rational, operations on finite values are exact, and the
    special values follow the rules of IEEE 754.  There is one zero, the
    positive one. *)

Module Exact.

Inductive xnum : Type :=
| XNaN
| XInf (neg : bool)
| XFin (q : Q).

Definition Qltb (a b : Q) : bool := negb (Qle_bool b a).

(** Finite values are kept in lowest terms, so that equal numbers are equal
    terms. *)
Definition fin (q : Q) : xnum := XFin (Qred q).

(** [0] compared with a rational: [Lt] when it is positive, [Gt] when negative. *)
Definition Qsgn (a : Q) : comparison := (0 ?= a)%Q.

Definition xadd (a b : xnum) : xnum :=
  match a, b with
  | XNaN, _ | _, XNaN => XNaN
  | XInf s1, XInf s2 => if Bool.eqb s1 s2 then a else XNaN
  | XInf _, XFin _ => a
  | XFin _, XInf _ => b
  | XFin x, XFin y => fin (x + y)
  end.

Definition xopp (a : xnum) : xnum :=
  match a with
  | XNaN => XNaN
  | XInf s => XInf (negb s)
  | XFin x => fin (- x)
  end.

Definition xsub (a b : xnum) : xnum :=
  match a, b with
  | XFin x, XFin y => fin (x - y)
  | _, _ => xadd a (xopp b)
  end.

Definition xmul (a b : xnum) : xnum :=
  match a, b with
  | XNaN, _ | _, XNaN => XNaN
  | XInf s1, XInf s2 => XInf (xorb s1 s2)
  | XInf s, XFin x | XFin x, XInf s =>
      match Qsgn x with
      | Eq => XNaN
      | Lt => XInf s
      | Gt => XInf (negb s)
      end
  | XFin x, XFin y => fin (x * y)
  end.

(** Division by (positive) zero follows IEEE 754: [0/0] is NaN and [x/0] is
    the infinity of the sign of [x]. *)
Definition xdiv (a b : xnum) : xnum :=
  match a, b with
  | XNaN, _ | _, XNaN => XNaN
  | XInf _, XInf _ => XNaN
  | XInf s, XFin y =>
      match Qsgn y with
      | Gt => XInf (negb s)
      | _ => XInf s
      end
  | XFin _, XInf _ => XFin 0
  | XFin x, XFin y =>
      match Qsgn y with
      | Eq =>
          match Qsgn x with
          | Eq => XNaN
          | Lt => XInf false
          | Gt => XInf true
          end
      | _ => fin (x / y)
      end
  end.

Definition xltb (a b : xnum) : bool :=
  match a, b with
  | XNaN, _ | _, XNaN => false
  | XInf s1, XInf s2 => s1 && negb s2
  | XInf s, XFin _ => s
  | XFin _, XInf s => negb s
  | XFin x, XFin y => Qltb x y
  end.

Definition xleb (a b : xnum) : bool :=
  match a, b with
  | XNaN, _ | _, XNaN => false
  | XInf s1, XInf s2 => s1 || negb s2
  | XInf s, XFin _ => s
  | XFin _, XInf s => negb s
  | XFin x, XFin y => Qle_bool x y
  end.

Definition xtruthy (a : xnum) : bool :=
  match a with
  | XNaN => false
  | XInf _ => true
  | XFin x => negb (Qeq_bool x 0)
  end.

Definition xfinite (a : xnum) : bool :=
  match a with XFin _ => true | _ => false end.

Definition xmax (a b : xnum) : xnum :=
  match a, b with
  | XNaN, _ | _, XNaN => XNaN
  | _, _ => if xltb a b then b else a
  end.

Definition xmin (a b : xnum) : xnum :=
  match a, b with
  | XNaN, _ | _, XNaN => XNaN
  | _, _ => if xltb b a then b else a
  end.

Definition xround (a : xnum) : xnum :=
  match a with
  | XFin x => fin (inject_Z (Qfloor (x + (1 # 2))))
  | _ => a
  end.

#[global] Instance number : JSNumber xnum := {
  lit := fin;
  add := xadd;
  sub := xsub;
  mul := xmul;
  div := xdiv;
  ltb := xltb;
  leb := xleb;
  ToBoolean := xtruthy;
  Number_isFinite := xfinite;
  Math_max := xmax;
  Math_min := xmin;
  Math_round := xround
}.

(** [a] is finite and its value is [v]. *)
Definition isQ (a : xnum) (v : Q) : Prop :=
  exists q, a = XFin q /\ q == v.

(** [a] is finite and lies in [[lo, hi]]. *)
Definition finBetween (lo hi : Q) (a : xnum) : Prop :=
  exists q, a = XFin q /\ lo <= q /\ q <= hi.

(** Equality of values: the same special value, or equal rationals. *)
Definition xeq (a b : xnum) : Prop :=
  match a, b with
  | XNaN, XNaN => True
  | XInf s, XInf s' => s = s'
  | XFin x, XFin y => x == y
  | _, _ => False
  end.

(** The weighted mean the aggregation loop computes, term by term, from
    eight scores and eight weights. *)
Definition weightedMean (s1 s2 s3 s4 s5 s6 s7 s8 w1 w2 w3 w4 w5 w6 w7 w8 : Q) : Q :=
  let T := 0 + w1 + w2 + w3 + w4 + w5 + w6 + w7 + w8 in
  0 + s1 * w1 / T + s2 * w2 / T + s3 * w3 / T + s4 * w4 / T
    + s5 * w5 / T + s6 * w6 / T + s7 * w7 / T + s8 * w8 / T.

End Exact.

(** ** Data model (server, types/index.ts)

    One module per interface, so that fields keep their names; every record is
    parameterised by the number type.  A field the TypeScript type marks
    optional, or that a request body may omit, is an [option]. *)

Module Location.
Record t (num : Type) : Type := mk {
  latitude : num;
  longitude : num;
  address : option string;
  city : option string;
  state : option string;
  zipCode : option string
}.
End Location.

Module AgeGroups.
Record t (num : Type) : Type := mk {
  under18 : num;
  age18to34 : num;
  age35to49 : num;
  age50to64 : num;
  over65 : num
}.
End AgeGroups.

Module Demographics.
Record t (num : Type) : Type := mk {
  totalPopulation : num;
  medianAge : num;
  medianIncome : num;
  diversityIndex : num;
  educationLevel : string;
  familyFriendly : bool;
  ageGroups : AgeGroups.t num
}.
End Demographics.

Module Amenities.
Record t (num : Type) : Type := mk {
  restaurants : num;
  cafes : num;
  bars : num;
  groceryStores : num;
  parks : num;
  gyms : num;
  schools : num;
  hospitals : num;
  shoppingCenters : num;
  entertainment : num
}.

(** [Object.values(amenities)]: the ten counts, in the order of the keys. *)
Definition Object_values {num : Type} (a : t num) : list num :=
  [ restaurants a; cafes a; bars a; groceryStores a; parks a;
    gyms a; schools a; hospitals a; shoppingCenters a; entertainment a ].
End Amenities.

Module SafetyMetrics.
Record t (num : Type) : Type := mk {
  crimeRate : num;
  safetyScore : num;
  policeStations : num;
  emergencyServices : num;
  wellLitStreets : bool
}.
End SafetyMetrics.

Module TransportationInfo.
Record t (num : Type) : Type := mk {
  walkabilityScore : num;
  transitScore : num;
  bikeScore : num;
  publicTransitStops : num;
  bikeLanes : num;
  parkingAvailability : string
}.
End TransportationInfo.

Module LifestyleMetrics.
Record t (num : Type) : Type := mk {
  nightlife : num;
  familyActivities : num;
  outdoorActivities : num;
  culturalEvents : num;
  communityEngagement : num
}.
End LifestyleMetrics.

Module NeighborhoodScores.
Record t (num : Type) : Type := mk {
  overall : num;
  safety : num;
  amenities : num;
  transportation : num;
  lifestyle : num;
  affordability : num
}.
End NeighborhoodScores.

Module Neighborhood.
Record t (num : Type) : Type := mk {
  id : string;
  name : string;
  location : Location.t num;
  demographics : Demographics.t num;
  amenities : Amenities.t num;
  safety : SafetyMetrics.t num;
  transportation : TransportationInfo.t num;
  lifestyle : LifestyleMetrics.t num;
  scores : NeighborhoodScores.t num;
  lastUpdated : string
}.
End Neighborhood.

Module Budget.
Record t (num : Type) : Type := mk {
  min : num;
  max : num
}.
End Budget.

(** The [priorities] object.  A key the request leaves out is [None]. *)
Module Priorities.
Record t (num : Type) : Type := mk {
  safety : option num;
  amenities : option num;
  transportation : option num;
  lifestyle : option num;
  affordability : option num;
  familyFriendly : option num;
  nightlife : option num;
  quietness : option num
}.

(** [Object.values(weights)]: the values of the keys that are present. *)
Definition Object_values {num : Type} (w : t num) : list num :=
  List.flat_map (fun o : option num => match o with Some v => [v] | None => [] end)
    [ safety w; amenities w; transportation w; lifestyle w;
      affordability w; familyFriendly w; nightlife w; quietness w ].

(** [weights[category]]: [None] stands for [undefined]. *)
Definition get {num : Type} (w : t num) (category : string) : option num :=
  if (category =? "safety")%string then safety w
  else if (category =? "amenities")%string then amenities w
  else if (category =? "transportation")%string then transportation w
  else if (category =? "lifestyle")%string then lifestyle w
  else if (category =? "affordability")%string then affordability w
  else if (category =? "familyFriendly")%string then familyFriendly w
  else if (category =? "nightlife")%string then nightlife w
  else if (category =? "quietness")%string then quietness w
  else None.
End Priorities.

Module Lifestyle.
Record t : Type := mk {
  ageGroup : string;
  activityLevel : string;
  socialPreference : string;
  workStyle : string
}.
End Lifestyle.

Module UserPreferences.
Record t (num : Type) : Type := mk {
  id : string;
  location : Location.t num;
  budget : Budget.t num;
  priorities : Priorities.t num;
  lifestyle : Lifestyle.t;
  mustHaves : list string;
  dealBreakers : list string
}.
End UserPreferences.

Module MatchingResult.
Record t (num : Type) : Type := mk {
  neighborhood : Neighborhood.t num;
  compatibilityScore : num;
  matchReasons : list string;
  potentialConcerns : list string;
  recommendations : list string
}.
End MatchingResult.

(** ** JavaScript helpers *)

Section Helpers.
Context {num : Type} `{JSNumber num}.
Local Open Scope js_scope.

(** [x || d] for [x] a number or [undefined]: [d] unless [x] is truthy. *)
Definition or_else (x : option num) (d : num) : num :=
  match x with
  | Some v => if ToBoolean v then v else d
  | None => d
  end.

(** [values.reduce((sum, v) => sum + v, 0)], also the loop
    [let total = 0; for (const v of values) total += v]. *)
Definition sum_values (values : list num) : num :=
  fold_left (fun sum value => sum + value) values $0.
End Helpers.

(** [array.push(x)]: the array with [x] appended. *)
Definition push {A : Type} (array : list A) (x : A) : list A := array ++ [x].




(** ** The matching algorithm (server, services/matchingAlgorithm.ts) *)

Module MatchingAlgorithm.
Section Generic.
Context {num : Type} `{JSNumber num}.
Local Open Scope string_scope.
Local Open Scope js_scope.

Definition WEIGHT_MULTIPLIER : num := $10.
Definition MAX_SCORE : num := $100.

(** *** Sub-score calculators *)

Definition calculateSafetyScore
    (preferences : UserPreferences.t num) (neighborhood : Neighborhood.t num) : num :=
  let safetyScore := neighborhood.(Neighborhood.safety).(SafetyMetrics.safetyScore) in
  let crimeBonus :=
    Math_max $0 (($50 - neighborhood.(Neighborhood.safety).(SafetyMetrics.crimeRate)) / $50) * $10 in
  Math_min MAX_SCORE (safetyScore + crimeBonus).

Definition calculateAmenitiesScore
    (preferences : UserPreferences.t num) (neighborhood : Neighborhood.t num) : num :=
  let totalAmenities := sum_values (Amenities.Object_values neighborhood.(Neighborhood.amenities)) in
  let normalizedAmenities := Math_min $100 ((totalAmenities / $50) * $100) in
  normalizedAmenities.

Definition calculateTransportationScore
    (preferences : UserPreferences.t num) (neighborhood : Neighborhood.t num) : num :=
  let transportation := neighborhood.(Neighborhood.transportation) in
  let walkabilityWeight := $0.4 in
  let transitWeight := $0.3 in
  let bikeWeight := $0.3 in
  Math_round
    (transportation.(TransportationInfo.walkabilityScore) * walkabilityWeight +
     transportation.(TransportationInfo.transitScore) * transitWeight +
     transportation.(TransportationInfo.bikeScore) * bikeWeight).

Definition calculateAgeGroupCompatibility
    (userAgeGroup : string) (demographics : Demographics.t num) : num :=
  let ageGroups := demographics.(Demographics.ageGroups) in
  let totalPopulation := demographics.(Demographics.totalPopulation) in
  if userAgeGroup =? "young" then
    (ageGroups.(AgeGroups.age18to34) / totalPopulation) * $100
  else if userAgeGroup =? "family" then
    ((ageGroups.(AgeGroups.age35to49) + ageGroups.(AgeGroups.under18)) / totalPopulation) * $100
  else if userAgeGroup =? "senior" then
    (ageGroups.(AgeGroups.over65) / totalPopulation) * $100
  else if userAgeGroup =? "mixed" then
    $75
  else
    $50.

Definition calculateActivityCompatibility
    (userActivityLevel : string) (lifestyle : LifestyleMetrics.t num) : num :=
  let outdoorScore := lifestyle.(LifestyleMetrics.outdoorActivities) in
  let culturalScore := lifestyle.(LifestyleMetrics.culturalEvents) in
  if userActivityLevel =? "high" then
    Math_round ((outdoorScore + culturalScore) / $2)
  else if userActivityLevel =? "medium" then
    Math_round ((outdoorScore + culturalScore + $50) / $3)
  else if userActivityLevel =? "low" then
    Math_round (($100 - outdoorScore + $100 - culturalScore) / $2)
  else
    $50.

Definition calculateSocialCompatibility
    (socialPreference : string) (lifestyle : LifestyleMetrics.t num) : num :=
  let communityScore := lifestyle.(LifestyleMetrics.communityEngagement) in
  let nightlifeScore := lifestyle.(LifestyleMetrics.nightlife) in
  if socialPreference =? "extrovert" then
    Math_round ((communityScore + nightlifeScore) / $2)
  else if socialPreference =? "introvert" then
    Math_round (($100 - communityScore + $100 - nightlifeScore) / $2)
  else if socialPreference =? "balanced" then
    Math_round ((communityScore + ($100 - nightlifeScore)) / $2)
  else
    $50.

Definition calculateLifestyleScore
    (preferences : UserPreferences.t num) (neighborhood : Neighborhood.t num) : num :=
  let lifestyle := neighborhood.(Neighborhood.lifestyle) in
  let userLifestyle := preferences.(UserPreferences.lifestyle) in
  let score := $0 in
  let ageGroupScore :=
    calculateAgeGroupCompatibility userLifestyle.(Lifestyle.ageGroup)
      neighborhood.(Neighborhood.demographics) in
  let score := score + ageGroupScore * $0.3 in
  let activityScore :=
    calculateActivityCompatibility userLifestyle.(Lifestyle.activityLevel) lifestyle in
  let score := score + activityScore * $0.3 in
  let socialScore :=
    calculateSocialCompatibility userLifestyle.(Lifestyle.socialPreference) lifestyle in
  let score := score + socialScore * $0.4 in
  Math_round score.

Definition calculateAffordabilityScore
    (preferences : UserPreferences.t num) (neighborhood : Neighborhood.t num) : num :=
  let budget := preferences.(UserPreferences.budget) in
  let medianIncome := neighborhood.(Neighborhood.demographics).(Demographics.medianIncome) in
  let estimatedHousingCost := medianIncome * $0.3 in
  if (estimatedHousingCost <=? budget.(Budget.max)) &&
     (estimatedHousingCost >=? budget.(Budget.min)) then $100
  else if estimatedHousingCost <=? budget.(Budget.max) * $1.2 then $80
  else if estimatedHousingCost <=? budget.(Budget.max) * $1.5 then $50
  else $20.

Definition calculateFamilyFriendlyScore
    (preferences : UserPreferences.t num) (neighborhood : Neighborhood.t num) : num :=
  let demographics := neighborhood.(Neighborhood.demographics) in
  let amenities := neighborhood.(Neighborhood.amenities) in
  let score := $0 in
  let score := score + Math_min $25 (amenities.(Amenities.schools) * $5) in
  let score :=
    score + Math_min $25
      ((amenities.(Amenities.parks) +
        neighborhood.(Neighborhood.lifestyle).(LifestyleMetrics.familyActivities)) * $2) in
  let familyPercentage :=
    (demographics.(Demographics.ageGroups).(AgeGroups.under18) +
     demographics.(Demographics.ageGroups).(AgeGroups.age35to49))
    / demographics.(Demographics.totalPopulation) in
  let score := score + familyPercentage * $50 in
  Math_round score.

Definition calculateNightlifeScore
    (preferences : UserPreferences.t num) (neighborhood : Neighborhood.t num) : num :=
  let amenities := neighborhood.(Neighborhood.amenities) in
  let lifestyle := neighborhood.(Neighborhood.lifestyle) in
  let score := $0 in
  let score :=
    score + Math_min $40
      ((amenities.(Amenities.bars) + amenities.(Amenities.restaurants)) * $2) in
  let score := score + lifestyle.(LifestyleMetrics.nightlife) * $0.6 in
  Math_round score.

Definition calculateQuietnessScore
    (preferences : UserPreferences.t num) (neighborhood : Neighborhood.t num) : num :=
  let lifestyle := neighborhood.(Neighborhood.lifestyle) in
  let amenities := neighborhood.(Neighborhood.amenities) in
  let noiseFactors :=
    (lifestyle.(LifestyleMetrics.nightlife) + amenities.(Amenities.entertainment)) / $2 in
  let quietnessScore := Math_max $0 ($100 - noiseFactors) in
  Math_round quietnessScore.

(** *** Weighted aggregation *)

(** The object [scores] of [calculateCompatibility], as [Object.entries]
    lists it. *)
Definition subScores
    (preferences : UserPreferences.t num) (neighborhood : Neighborhood.t num)
    : list (string * num) :=
  [ ("safety", calculateSafetyScore preferences neighborhood);
    ("amenities", calculateAmenitiesScore preferences neighborhood);
    ("transportation", calculateTransportationScore preferences neighborhood);
    ("lifestyle", calculateLifestyleScore preferences neighborhood);
    ("affordability", calculateAffordabilityScore preferences neighborhood);
    ("familyFriendly", calculateFamilyFriendlyScore preferences neighborhood);
    ("nightlife", calculateNightlifeScore preferences neighborhood);
    ("quietness", calculateQuietnessScore preferences neighborhood) ].

(** Lines 29-38 of [calculateCompatibility]: the total weight, the loop
    over the entries of [scores], the final rounding. *)
Definition aggregate (scores : list (string * num)) (weights : Priorities.t num) : num :=
  let totalWeight :=
    fold_left (fun sum weight => sum + weight) (Priorities.Object_values weights) $0 in
  let weightedScore :=
    fold_left
      (fun weightedScore (entry : string * num) =>
         let (category, score) := entry in
         let weight := or_else (Priorities.get weights category) $5 in
         weightedScore + (score * weight) / totalWeight)
      scores $0 in
  Math_round weightedScore.

Definition calculateCompatibility
    (preferences : UserPreferences.t num) (neighborhood : Neighborhood.t num) : num :=
  let scores := subScores preferences neighborhood in
  let weights := preferences.(UserPreferences.priorities) in
  aggregate scores weights.

(** *** Explanations *)

Definition generateMatchReasons
    (preferences : UserPreferences.t num) (neighborhood : Neighborhood.t num)
    : list string :=
  let reasons := [] in
  let reasons :=
    if neighborhood.(Neighborhood.safety).(SafetyMetrics.safetyScore) >? $80
    then push reasons "Excellent safety ratings" else reasons in
  let totalAmenities := sum_values (Amenities.Object_values neighborhood.(Neighborhood.amenities)) in
  let reasons :=
    if totalAmenities >? $30
    then push reasons "Abundant local amenities" else reasons in
  let reasons :=
    if neighborhood.(Neighborhood.transportation).(TransportationInfo.walkabilityScore) >? $70
    then push reasons "Highly walkable neighborhood" else reasons in
  let lifestyle := preferences.(UserPreferences.lifestyle) in
  let reasons :=
    if (lifestyle.(Lifestyle.ageGroup) =? "family") &&
       neighborhood.(Neighborhood.demographics).(Demographics.familyFriendly)
    then push reasons "Family-friendly community" else reasons in
  reasons.

Definition generatePotentialConcerns
    (preferences : UserPreferences.t num) (neighborhood : Neighborhood.t num)
    : list string :=
  let concerns := [] in
  let concerns :=
    if neighborhood.(Neighborhood.safety).(SafetyMetrics.crimeRate) >? $30
    then push concerns "Higher than average crime rate" else concerns in
  let budget := preferences.(UserPreferences.budget) in
  let estimatedCost :=
    neighborhood.(Neighborhood.demographics).(Demographics.medianIncome) * $0.3 in
  let concerns :=
    if estimatedCost >? budget.(Budget.max)
    then push concerns "May exceed your budget range" else concerns in
  let concerns :=
    if neighborhood.(Neighborhood.transportation).(TransportationInfo.walkabilityScore) <? $30
    then push concerns "Limited walkability" else concerns in
  concerns.

Definition generateRecommendations
    (preferences : UserPreferences.t num) (neighborhood : Neighborhood.t num)
    : list string :=
  let recommendations := [] in
  let recommendations :=
    if neighborhood.(Neighborhood.transportation).(TransportationInfo.walkabilityScore) <? $50
    then push recommendations "Consider getting a car or using ride-sharing services"
    else recommendations in
  let recommendations :=
    if neighborhood.(Neighborhood.safety).(SafetyMetrics.safetyScore) <? $70
    then push recommendations "Research specific safety measures and local crime patterns"
    else recommendations in
  let lifestyle := preferences.(UserPreferences.lifestyle) in
  let recommendations :=
    if (lifestyle.(Lifestyle.activityLevel) =? "high") &&
       (neighborhood.(Neighborhood.lifestyle).(LifestyleMetrics.outdoorActivities) <? $50)
    then push recommendations "Look for nearby parks and recreational facilities"
    else recommendations in
  recommendations.

Definition generateMatchingResult
    (preferences : UserPreferences.t num) (neighborhood : Neighborhood.t num)
    : MatchingResult.t num :=
  let compatibilityScore := calculateCompatibility preferences neighborhood in
  {| MatchingResult.neighborhood := neighborhood;
     MatchingResult.compatibilityScore := compatibilityScore;
     MatchingResult.matchReasons := generateMatchReasons preferences neighborhood;
     MatchingResult.potentialConcerns := generatePotentialConcerns preferences neighborhood;
     MatchingResult.recommendations := generateRecommendations preferences neighborhood |}.

End Generic.
End MatchingAlgorithm.

(** ** The matching route (server, routes/matching.ts) *)

Module Body.
Record t (num : Type) : Type := mk {
  preferences : option (UserPreferences.t num);
  neighborhoods : option (list (Neighborhood.t num))
}.
End Body.

(** The response envelope; its [timestamp], read from the clock, is left out. *)
Module Response.
Record t (num : Type) : Type := mk {
  status : nat;
  success : bool;
  data : option (list (MatchingResult.t num));
  error : option string
}.
End Response.

Section Routes.
Context {num : Type} `{JSNumber num}.

Definition matchingRoutes_post (body : Body.t num) : Response.t num :=
  match body.(Body.preferences), body.(Body.neighborhoods) with
  | Some preferences, Some neighborhoods =>
      let results :=
        List.map (fun n => MatchingAlgorithm.generateMatchingResult preferences n) neighborhoods in
      {| Response.status := 200; Response.success := true;
         Response.data := Some results; Response.error := None |}
  | _, _ =>
      {| Response.status := 400; Response.success := false;
         Response.data := None;
         Response.error := Some "Missing preferences or neighborhoods"%string |}
  end.
End Routes.

(** ** The neighborhood list filter (client, pages/NeighborhoodsPage.tsx) *)

Module SelectedFilters.
Record t (num : Type) : Type := mk {
  safetyScore : num;
  walkabilityScore : num;
  maxCrimeRate : num;
  minAmenities : num
}.
End SelectedFilters.

Section NeighborhoodsPage.
Context {num : Type} `{JSNumber num}.
Local Open Scope js_scope.





Definition totalAmenities (neighborhood : Neighborhood.t num) : num :=
  sum_values (Amenities.Object_values neighborhood.(Neighborhood.amenities)).




End NeighborhoodsPage.

(** ** Sample records *)

Section Fixtures.
Context {num : Type} `{JSNumber num}.
Local Open Scope string_scope.
Local Open Scope js_scope.

Definition newYork : Location.t num :=
  Location.mk $40.7128 $(-74.006) None (Some "New York") None None.

Definition someScores : NeighborhoodScores.t num :=
  NeighborhoodScores.mk $70 $85 $60 $75 $65 $80.

Definition mkNeighborhood (name : string)
    (demographics : Demographics.t num) (amenities : Amenities.t num)
    (safety : SafetyMetrics.t num) (transportation : TransportationInfo.t num)
    (lifestyle : LifestyleMetrics.t num) : Neighborhood.t num :=
  Neighborhood.mk "neighborhood_40.7128_-74.0060" name newYork demographics amenities
    safety transportation lifestyle someScores "2024-01-01T00:00:00.000Z".

Definition mkPreferences (budget : Budget.t num) (priorities : Priorities.t num)
    (lifestyle : Lifestyle.t) : UserPreferences.t num :=
  UserPreferences.mk "default-user" newYork budget priorities lifestyle [] [].

(** All eight priorities present and equal to [w]. *)
Definition uniformPriorities (w : num) : Priorities.t num :=
  Priorities.mk (Some w) (Some w) (Some w) (Some w) (Some w) (Some w) (Some w) (Some w).

(** The priority of safety is [ws], the other seven are [w]. *)
Definition safetyPriority (ws w : num) : Priorities.t num :=
  Priorities.mk (Some ws) (Some w) (Some w) (Some w) (Some w) (Some w) (Some w) (Some w).

(** A neighborhood of 10000 residents with 30 amenities. *)
Definition downtownDemographics (totalPopulation : num) (ageGroups : AgeGroups.t num)
    : Demographics.t num :=
  Demographics.mk totalPopulation $35 $200000 $50 "high" true ageGroups.

Definition downtownAmenities : Amenities.t num :=
  Amenities.mk $4 $3 $2 $2 $3 $2 $2 $1 $1 $10.

Definition downtownTransportation (walkabilityScore : num) : TransportationInfo.t num :=
  TransportationInfo.mk walkabilityScore $70 $70 $5 $10 "medium".

Definition downtownLifestyle : LifestyleMetrics.t num :=
  LifestyleMetrics.mk $30 $2 $40 $60 $70.

Definition downtown (crimeRate safetyScore : num) : Neighborhood.t num :=
  mkNeighborhood "Downtown"
    (downtownDemographics $10000 (AgeGroups.mk $2000 $5000 $2000 $500 $500))
    downtownAmenities
    (SafetyMetrics.mk crimeRate safetyScore $2 $1 true)
    (downtownTransportation $70)
    downtownLifestyle.

(** The same place with nobody living in it. *)
Definition emptyDowntown : Neighborhood.t num :=
  mkNeighborhood "Downtown"
    (downtownDemographics $0 (AgeGroups.mk $0 $0 $0 $0 $0))
    downtownAmenities
    (SafetyMetrics.mk $50 $90 $2 $1 true)
    (downtownTransportation $70)
    downtownLifestyle.

Definition youngExtrovert : Lifestyle.t :=
  Lifestyle.mk "young" "high" "extrovert" "remote".

Definition preferencesWith (priorities : Priorities.t num) : UserPreferences.t num :=
  mkPreferences (Budget.mk $40000 $60000) priorities youngExtrovert.

(** A profile whose three enum fields are outside their string sets. *)
Definition malformedLifestyle : Lifestyle.t :=
  Lifestyle.mk "toddler" "extreme" "hermit" "remote".


(** Inputs that make any chosen subset of the three concern rules fire. *)
Definition concernsInput (crime budget walkability : bool)
    : UserPreferences.t num * Neighborhood.t num :=
  (preferencesWith (uniformPriorities $5),
   mkNeighborhood "Downtown"
     (Demographics.mk $10000 $35 (if budget then $300000 else $100000) $50
        "high" true (AgeGroups.mk $2000 $5000 $2000 $500 $500))
     downtownAmenities
     (SafetyMetrics.mk (if crime then $40 else $10) $90 $2 $1 true)
     (downtownTransportation (if walkability then $20 else $50))
     downtownLifestyle).

(** The sub-scores of Scenario B. *)
Definition scenarioB : list (string * num) :=
  [ ("safety", $90); ("amenities", $60); ("transportation", $70); ("lifestyle", $50);
    ("affordability", $100); ("familyFriendly", $40); ("nightlife", $30);
    ("quietness", $80) ].
End Fixtures.

(** ** The rules as the specification words them *)

Section SpecRules.
Context {num : Type} `{JSNumber num}.
Local Open Scope string_scope.
Local Open Scope js_scope.

(** Safety: [min(100, safetyScore + max(0, (50 - crimeRate) / 50) * 10)]. *)
Definition spec_safety (safetyScore crimeRate : num) : num :=
  Math_min $100 (safetyScore + Math_max $0 (($50 - crimeRate) / $50) * $10).

(** Affordability: 100 within the budget, then 80, 50, 20. *)
Definition spec_affordability (medianIncome budget_min budget_max : num) : num :=
  let cost := medianIncome * $0.3 in
  if (budget_min <=? cost) && (cost <=? budget_max) then $100
  else if cost <=? budget_max * $1.2 then $80
  else if cost <=? budget_max * $1.5 then $50
  else $20.

(** The three concern rules, in their fixed order. *)
Definition crimeConcern : string := "Higher than average crime rate".
Definition budgetConcern : string := "May exceed your budget range".
Definition walkabilityConcern : string := "Limited walkability".

Definition crimeRule (neighborhood : Neighborhood.t num) : bool :=
  neighborhood.(Neighborhood.safety).(SafetyMetrics.crimeRate) >? $30.

Definition budgetRule (preferences : UserPreferences.t num)
    (neighborhood : Neighborhood.t num) : bool :=
  neighborhood.(Neighborhood.demographics).(Demographics.medianIncome) * $0.3
    >? preferences.(UserPreferences.budget).(Budget.max).

Definition walkabilityRule (neighborhood : Neighborhood.t num) : bool :=
  neighborhood.(Neighborhood.transportation).(TransportationInfo.walkabilityScore) <? $30.

Definition spec_concerns (preferences : UserPreferences.t num)
    (neighborhood : Neighborhood.t num) : list string :=
  ((if crimeRule neighborhood then [crimeConcern] else []) ++
   (if budgetRule preferences neighborhood then [budgetConcern] else []) ++
   (if walkabilityRule neighborhood then [walkabilityConcern] else []))%list.

(** The eight dimensions and the weight of each, defaulted to 5. *)
Definition categories : list string :=
  [ "safety"; "amenities"; "transportation"; "lifestyle";
    "affordability"; "familyFriendly"; "nightlife"; "quietness" ].

Definition defaultedWeight (weights : Priorities.t num) (category : string) : num :=
  or_else (Priorities.get weights category) $5.

(** [round(sum(score_i * weight_i) / totalWeight)], the total weight being
    the sum of the eight weights after defaulting. *)
Definition spec_aggregate (scores : list (string * num)) (weights : Priorities.t num) : num :=
  let totalWeight := sum_values (List.map (defaultedWeight weights) categories) in
  Math_round
    (sum_values
       (List.map (fun entry : string * num =>
                    snd entry * defaultedWeight weights (fst entry)) scores)
     / totalWeight).

(** The unweighted arithmetic mean of the sub-scores, rounded. *)
Definition spec_mean (scores : list (string * num)) : num :=
  Math_round (sum_values (List.map snd scores) / $8).
End SpecRules.

(** ** The data model's invariants, as executable checks *)

Section Validity.
Context {num : Type} `{JSNumber num}.
Local Open Scope string_scope.
Local Open Scope js_scope.

Definition nonNegative (x : num) : bool :=
  Number_isFinite x && ($0 <=? x).

Definition inRange (lo hi x : num) : bool :=
  Number_isFinite x && (lo <=? x) && (x <=? hi).

(** Five non-negative buckets that sum to at most the total population. *)
Definition validAgeGroups (totalPopulation : num) (g : AgeGroups.t num) : bool :=
  nonNegative g.(AgeGroups.under18) && nonNegative g.(AgeGroups.age18to34) &&
  nonNegative g.(AgeGroups.age35to49) && nonNegative g.(AgeGroups.age50to64) &&
  nonNegative g.(AgeGroups.over65) &&
  (g.(AgeGroups.under18) + g.(AgeGroups.age18to34) + g.(AgeGroups.age35to49) +
   g.(AgeGroups.age50to64) + g.(AgeGroups.over65) <=? totalPopulation).

Definition validDemographics (d : Demographics.t num) : bool :=
  nonNegative d.(Demographics.totalPopulation) &&
  inRange $0 $100 d.(Demographics.diversityIndex) &&
  validAgeGroups d.(Demographics.totalPopulation) d.(Demographics.ageGroups).

Definition validAmenities (a : Amenities.t num) : bool :=
  forallb nonNegative (Amenities.Object_values a).

Definition validSafety (s : SafetyMetrics.t num) : bool :=
  nonNegative s.(SafetyMetrics.crimeRate) &&
  inRange $0 $100 s.(SafetyMetrics.safetyScore).

Definition validTransportation (t : TransportationInfo.t num) : bool :=
  inRange $0 $100 t.(TransportationInfo.walkabilityScore) &&
  inRange $0 $100 t.(TransportationInfo.transitScore) &&
  inRange $0 $100 t.(TransportationInfo.bikeScore).

Definition validLifestyleMetrics (l : LifestyleMetrics.t num) : bool :=
  inRange $0 $100 l.(LifestyleMetrics.nightlife) &&
  inRange $0 $100 l.(LifestyleMetrics.familyActivities) &&
  inRange $0 $100 l.(LifestyleMetrics.outdoorActivities) &&
  inRange $0 $100 l.(LifestyleMetrics.culturalEvents) &&
  inRange $0 $100 l.(LifestyleMetrics.communityEngagement).

Definition validNeighborhood (n : Neighborhood.t num) : bool :=
  validDemographics n.(Neighborhood.demographics) &&
  validAmenities n.(Neighborhood.amenities) &&
  validSafety n.(Neighborhood.safety) &&
  validTransportation n.(Neighborhood.transportation) &&
  validLifestyleMetrics n.(Neighborhood.lifestyle).

(** A priority that is present and within 1-10. *)
Definition validPriority (w : option num) : bool :=
  match w with
  | Some v => inRange $1 $10 v
  | None => false
  end.

Definition validPriorities (w : Priorities.t num) : bool :=
  validPriority w.(Priorities.safety) && validPriority w.(Priorities.amenities) &&
  validPriority w.(Priorities.transportation) && validPriority w.(Priorities.lifestyle) &&
  validPriority w.(Priorities.affordability) && validPriority w.(Priorities.familyFriendly) &&
  validPriority w.(Priorities.nightlife) && validPriority w.(Priorities.quietness).

Definition validBudget (b : Budget.t num) : bool :=
  nonNegative b.(Budget.min) && Number_isFinite b.(Budget.max) &&
  (b.(Budget.min) <=? b.(Budget.max)).

(** The closed string sets of the lifestyle profile. *)
Definition isAgeGroup (s : string) : bool :=
  existsb (String.eqb s) ["young"; "family"; "senior"; "mixed"].

Definition isActivityLevel (s : string) : bool :=
  existsb (String.eqb s) ["low"; "medium"; "high"].

Definition isSocialPreference (s : string) : bool :=
  existsb (String.eqb s) ["introvert"; "extrovert"; "balanced"].

Definition validLifestyle (l : Lifestyle.t) : bool :=
  isAgeGroup l.(Lifestyle.ageGroup) && isActivityLevel l.(Lifestyle.activityLevel) &&
  isSocialPreference l.(Lifestyle.socialPreference).

Definition validPreferences (p : UserPreferences.t num) : bool :=
  validBudget p.(UserPreferences.budget) &&
  validPriorities p.(UserPreferences.priorities) &&
  validLifestyle p.(UserPreferences.lifestyle).


End Validity.

(** The preferences [p] with another [priorities] object. *)
Definition withPriorities {num : Type} (p : UserPreferences.t num) (priorities : Priorities.t num)
    : UserPreferences.t num :=
  UserPreferences.mk p.(UserPreferences.id) p.(UserPreferences.location)
    p.(UserPreferences.budget) priorities p.(UserPreferences.lifestyle)
    p.(UserPreferences.mustHaves) p.(UserPreferences.dealBreakers).

(** Every priority that is present multiplied by [k]. *)
Definition scalePriorities {num : Type} `{JSNumber num} (k : num) (w : Priorities.t num)
    : Priorities.t num :=
  let scale := option_map (fun v => mul v k) in
  Priorities.mk (scale w.(Priorities.safety)) (scale w.(Priorities.amenities))
    (scale w.(Priorities.transportation)) (scale w.(Priorities.lifestyle))
    (scale w.(Priorities.affordability)) (scale w.(Priorities.familyFriendly))
    (scale w.(Priorities.nightlife)) (scale w.(Priorities.quietness)).

(** A request body that carries both keys. *)
Definition matchingBody {num : Type} (p : UserPreferences.t num) (ns : list (Neighborhood.t num))
    : Body.t num :=
  Body.mk (Some p) (Some ns).

(** ** Labels and colours of the pages (client, pages/NeighborhoodsPage.tsx) *)

Section PageLabels.
Context {num : Type} `{JSNumber num}.
Local Open Scope string_scope.
Local Open Scope js_scope.

Definition getSafetyColor (score : num) : string :=
  if score >=? $80 then "text-green-600"
  else if score >=? $60 then "text-yellow-600"
  else "text-red-600".

Definition getSafetyLabel (score : num) : string :=
  if score >=? $80 then "Excellent"
  else if score >=? $60 then "Good"
  else "Poor".

Definition getCompatibilityColor (score : num) : string :=
  if score >=? $80 then "text-green-600"
  else if score >=? $60 then "text-yellow-600"
  else "text-red-600".

Definition getCompatibilityLabel (score : num) : string :=
  if score >=? $80 then "Excellent Match"
  else if score >=? $60 then "Good Match"
  else if score >=? $40 then "Fair Match"
  else "Poor Match".

Definition getScoreColor (score : num) : string :=
  if score >=? $80 then "text-green-600"
  else if score >=? $60 then "text-yellow-600"
  else "text-red-600".

Definition getScoreLabel (score : num) : string :=
  if score >=? $80 then "Excellent"
  else if score >=? $60 then "Good"
  else if score >=? $40 then "Fair"
  else "Poor".
End PageLabels.

Definition getEducationColor (level : string) : string :=
  if (level =? "high")%string then "text-green-600"%string
  else if (level =? "medium")%string then "text-yellow-600"%string
  else if (level =? "low")%string then "text-red-600"%string
  else "text-gray-600"%string.

Definition getParkingColor (availability : string) : string :=
  if (availability =? "high")%string then "text-green-600"%string
  else if (availability =? "medium")%string then "text-yellow-600"%string
  else if (availability =? "low")%string then "text-red-600"%string
  else "text-gray-600"%string.

(** The rank of a match label, from worst to best. *)
Definition labelRank (label : string) : nat :=
  if (label =? "Excellent Match")%string then 3
  else if (label =? "Good Match")%string then 2
  else if (label =? "Fair Match")%string then 1
  else 0.

(** ** The preferences form (client, PreferencesPage) *)

(** [array.filter((x, i) => f(x, i))], the index counted from [i]. *)
Fixpoint filter_from {A : Type} (f : A -> nat -> bool) (i : nat) (array : list A) : list A :=
  match array with
  | [] => []
  | x :: rest =>
      if f x i then x :: filter_from f (S i) rest else filter_from f (S i) rest
  end.

Definition filter_index {A : Type} (f : A -> nat -> bool) (array : list A) : list A :=
  filter_from f 0 array.

(** White space and line terminators, among the ASCII characters. *)
Definition isWhiteSpace (c : ascii) : bool :=
  let n := nat_of_ascii c in
  ((9 <=? n) && (n <=? 13))%nat || (n =? 32)%nat.

Fixpoint trimStart (s : string) : string :=
  match s with
  | EmptyString => EmptyString
  | String c s' => if isWhiteSpace c then trimStart s' else s
  end.

Fixpoint trimEnd (s : string) : string :=
  match s with
  | EmptyString => EmptyString
  | String c s' =>
      match trimEnd s' with
      | EmptyString => if isWhiteSpace c then EmptyString else String c EmptyString
      | rest => String c rest
      end
  end.

(** [String.prototype.trim]. *)
Definition trim (s : string) : string := trimEnd (trimStart s).

(** Truthiness of a string: false at the empty string only. *)
Definition ToBoolean_string (s : string) : bool :=
  match s with
  | EmptyString => false
  | String _ _ => true
  end.

(** The [UserPreferences] of the form: the server's without [id]. *)
Module PreferencesForm.
Record t (num : Type) : Type := mk {
  location : Location.t num;
  budget : Budget.t num;
  priorities : Priorities.t num;
  lifestyle : Lifestyle.t;
  mustHaves : list string;
  dealBreakers : list string
}.
End PreferencesForm.

(** The state of [PreferencesPage]: the form and its two text inputs. *)
Module PreferencesPage.
Record t (num : Type) : Type := mk {
  preferences : PreferencesForm.t num;
  newMustHave : string;
  newDealBreaker : string
}.

Section Handlers.
Context {num : Type}.

Definition setMustHaves (prev : PreferencesForm.t num) (mustHaves : list string)
    : PreferencesForm.t num :=
  PreferencesForm.mk prev.(PreferencesForm.location) prev.(PreferencesForm.budget)
    prev.(PreferencesForm.priorities) prev.(PreferencesForm.lifestyle)
    mustHaves prev.(PreferencesForm.dealBreakers).

Definition setDealBreakers (prev : PreferencesForm.t num) (dealBreakers : list string)
    : PreferencesForm.t num :=
  PreferencesForm.mk prev.(PreferencesForm.location) prev.(PreferencesForm.budget)
    prev.(PreferencesForm.priorities) prev.(PreferencesForm.lifestyle)
    prev.(PreferencesForm.mustHaves) dealBreakers.

Definition addMustHave (state : t num) : t num :=
  if ToBoolean_string (trim state.(newMustHave)) then
    mk (setMustHaves state.(preferences)
          (state.(preferences).(PreferencesForm.mustHaves) ++ [trim state.(newMustHave)]))
       EmptyString state.(newDealBreaker)
  else state.

Definition removeMustHave (index : nat) (state : t num) : t num :=
  mk (setMustHaves state.(preferences)
        (filter_index (fun _ i => negb (i =? index)%nat)
           state.(preferences).(PreferencesForm.mustHaves)))
     state.(newMustHave) state.(newDealBreaker).

Definition addDealBreaker (state : t num) : t num :=
  if ToBoolean_string (trim state.(newDealBreaker)) then
    mk (setDealBreakers state.(preferences)
          (state.(preferences).(PreferencesForm.dealBreakers) ++ [trim state.(newDealBreaker)]))
       state.(newMustHave) EmptyString
  else state.

Definition removeDealBreaker (index : nat) (state : t num) : t num :=
  mk (setDealBreakers state.(preferences)
        (filter_index (fun _ i => negb (i =? index)%nat)
           state.(preferences).(PreferencesForm.dealBreakers)))
     state.(newMustHave) state.(newDealBreaker).
End Handlers.
End PreferencesPage.

(** ** The neighborhood route (server, routes/neighborhoods.ts) *)

(** [s] without its first [n] characters. *)
Fixpoint skip (n : nat) (s : string) : string :=
  match n, s with
  | O, _ => s
  | S n', String _ s' => skip n' s'
  | S _, EmptyString => EmptyString
  end.

(** [s.replace(pattern, replacement)] for a string pattern: the first
    occurrence is replaced. *)
Fixpoint replace (s pattern replacement : string) : string :=
  if String.prefix pattern s then (replacement ++ skip (String.length pattern) s)%string
  else
    match s with
    | EmptyString => EmptyString
    | String c s' => String c (replace s' pattern replacement)
    end.

(** [s.split(separator)] for a separator of one character. *)
Fixpoint split (separator : ascii) (s : string) : list string :=
  match s with
  | EmptyString => [EmptyString]
  | String c s' =>
      if Ascii.eqb c separator then EmptyString :: split separator s'
      else
        match split separator s' with
        | part :: parts => String c part :: parts
        | [] => [String c EmptyString]
        end
  end.

(** What the handler of [GET /:id] has when it reaches the data service:
    a response of status 400, or the two coordinate strings. *)
Inductive IdOutcome : Type :=
| BadRequest (error : string)
| Coordinates (lat lng : string).

Definition neighborhoodRoutes_get_id (id : string) : IdOutcome :=
  if negb (ToBoolean_string id) then BadRequest "Neighborhood ID is required"
  else
    let coords := split "_" (replace id "neighborhood_" "") in
    if negb (List.length coords =? 2)%nat then BadRequest "Invalid neighborhood ID format"
    else
      let lat := nth 0 coords EmptyString in
      let lng := nth 1 coords EmptyString in
      if negb (ToBoolean_string lat) || negb (ToBoolean_string lng)
      then BadRequest "Invalid coordinates in neighborhood ID"
      else Coordinates lat lng.

(** No underscore occurs in [s]. *)
Fixpoint underscoreFree (s : string) : bool :=
  match s with
  | EmptyString => true
  | String c s' => negb (Ascii.eqb c "_") && underscoreFree s'
  end.

(** ** The preference store (server, services/preferenceService.ts) *)

(** A JavaScript [Map] with string keys: the entries in insertion order,
    no key twice. *)
Module JSMap.
Section Ops.
Context {V : Type}.

Definition t : Type := list (string * V).

Definition empty : t := [].

Fixpoint get (m : t) (key : string) : option V :=
  match m with
  | [] => None
  | (k, v) :: rest => if (k =? key)%string then Some v else get rest key
  end.

Definition has (m : t) (key : string) : bool :=
  match get m key with Some _ => true | None => false end.

(** [set] keeps the place of a key that is present and appends a new one. *)
Fixpoint set (m : t) (key : string) (value : V) : t :=
  match m with
  | [] => [(key, value)]
  | (k, v) :: rest =>
      if (k =? key)%string then (key, value) :: rest else (k, v) :: set rest key value
  end.

(** [delete] returns whether the key was present. *)
Fixpoint delete (m : t) (key : string) : bool * t :=
  match m with
  | [] => (false, [])
  | (k, v) :: rest =>
      if (k =? key)%string then (true, rest)
      else let (deleted, rest') := delete rest key in (deleted, (k, v) :: rest')
  end.

Definition keys (m : t) : list string := List.map fst m.

Definition clear (m : t) : t := [].
End Ops.
Arguments t : clear implicits.
End JSMap.

Module PartialLifestyle.
Record t : Type := mk {
  ageGroup : option string;
  activityLevel : option string;
  socialPreference : option string;
  workStyle : option string
}.
End PartialLifestyle.

(** [Partial<UserPreferences>], as a request body gives it: any key may be
    missing, also inside [priorities] and [lifestyle]. *)
Module PartialPreferences.
Record t (num : Type) : Type := mk {
  id : option string;
  location : option (Location.t num);
  budget : option (Budget.t num);
  priorities : option (Priorities.t num);
  lifestyle : option PartialLifestyle.t;
  mustHaves : option (list string);
  dealBreakers : option (list string)
}.
End PartialPreferences.

(** [x || d] for [x] an object or [undefined]. *)
Definition or_object {A : Type} (x : option A) (d : A) : A :=
  match x with
  | Some v => v
  | None => d
  end.

(** [x || d] for [x] a string or [undefined]. *)
Definition or_string (x : option string) (d : string) : string :=
  match x with
  | Some v => if ToBoolean_string v then v else d
  | None => d
  end.

(** [x?.f] for [f] a field that is always there, and for an optional one. *)
Definition optional {A B : Type} (x : option A) (f : A -> B) : option B :=
  option_map f x.

Definition optional_chain {A B : Type} (x : option A) (f : A -> option B) : option B :=
  match x with
  | Some v => f v
  | None => None
  end.

Module PreferenceService.
Section Generic.
Context {num : Type} `{JSNumber num}.
Local Open Scope string_scope.
Local Open Scope js_scope.

(** The static field [preferences]. *)
Definition Store : Type := JSMap.t (UserPreferences.t num).

Definition getUserPreferences (store : Store) (userId : string)
    : option (UserPreferences.t num) :=
  JSMap.get store userId.

Definition getDefaultLocation : Location.t num :=
  Location.mk $40.7128 $(-74.0060) None (Some "New York") (Some "NY") (Some "10001").

Definition saveUserPreferences (store : Store) (userId : string)
    (preferences : PartialPreferences.t num) : UserPreferences.t num * Store :=
  let existing := getUserPreferences store userId in
  let priority (f : Priorities.t num -> option num) (d : num) : option num :=
    Some (or_else (optional_chain preferences.(PartialPreferences.priorities) f)
            (or_else (optional_chain (optional existing (@UserPreferences.priorities num)) f) d)) in
  let style (f : PartialLifestyle.t -> option string) (g : Lifestyle.t -> string) (d : string)
      : string :=
    or_string (optional_chain preferences.(PartialPreferences.lifestyle) f)
      (or_string (optional (optional existing (@UserPreferences.lifestyle num)) g) d) in
  let updatedPreferences :=
    {| UserPreferences.id := userId;
       UserPreferences.location :=
         or_object preferences.(PartialPreferences.location)
           (or_object (optional existing (@UserPreferences.location num)) getDefaultLocation);
       UserPreferences.budget :=
         or_object preferences.(PartialPreferences.budget)
           (or_object (optional existing (@UserPreferences.budget num))
              (Budget.mk $50000 $150000));
       UserPreferences.priorities :=
         {| Priorities.safety := priority (@Priorities.safety num) $8;
            Priorities.amenities := priority (@Priorities.amenities num) $7;
            Priorities.transportation := priority (@Priorities.transportation num) $6;
            Priorities.lifestyle := priority (@Priorities.lifestyle num) $7;
            Priorities.affordability := priority (@Priorities.affordability num) $8;
            Priorities.familyFriendly := priority (@Priorities.familyFriendly num) $5;
            Priorities.nightlife := priority (@Priorities.nightlife num) $6;
            Priorities.quietness := priority (@Priorities.quietness num) $5 |};
       UserPreferences.lifestyle :=
         {| Lifestyle.ageGroup :=
              style PartialLifestyle.ageGroup Lifestyle.ageGroup "mixed";
            Lifestyle.activityLevel :=
              style PartialLifestyle.activityLevel Lifestyle.activityLevel "medium";
            Lifestyle.socialPreference :=
              style PartialLifestyle.socialPreference Lifestyle.socialPreference "balanced";
            Lifestyle.workStyle :=
              style PartialLifestyle.workStyle Lifestyle.workStyle "hybrid" |};
       UserPreferences.mustHaves :=
         or_object preferences.(PartialPreferences.mustHaves)
           (or_object (optional existing (@UserPreferences.mustHaves num)) []);
       UserPreferences.dealBreakers :=
         or_object preferences.(PartialPreferences.dealBreakers)
           (or_object (optional existing (@UserPreferences.dealBreakers num)) []) |} in
  (updatedPreferences, JSMap.set store userId updatedPreferences).

Definition generateDefaultPreferences (store : Store) (userId : string)
    : UserPreferences.t num * Store :=
  let defaultPreferences :=
    {| UserPreferences.id := userId;
       UserPreferences.location := getDefaultLocation;
       UserPreferences.budget := Budget.mk $50000 $150000;
       UserPreferences.priorities :=
         Priorities.mk (Some $8) (Some $7) (Some $6) (Some $7)
                       (Some $8) (Some $5) (Some $6) (Some $5);
       UserPreferences.lifestyle := Lifestyle.mk "mixed" "medium" "balanced" "hybrid";
       UserPreferences.mustHaves := ["Grocery store nearby"; "Public transportation"];
       UserPreferences.dealBreakers := ["High crime rate"; "Poor school ratings"] |} in
  (defaultPreferences, JSMap.set store userId defaultPreferences).

Definition deleteUserPreferences (store : Store) (userId : string) : bool * Store :=
  JSMap.delete store userId.

Definition getAllUserIds (store : Store) : list string := JSMap.keys store.

Definition clearAllPreferences (store : Store) : Store := JSMap.clear store.

End Generic.
End PreferenceService.

(** ** The preference routes (server, routes/preferences.ts)

    A handler takes the store and returns the JSON it sends with the store
    it leaves; the [timestamp] is left out. *)

Module PreferenceResponse.
Record t (num : Type) : Type := mk {
  success : bool;
  data : option (UserPreferences.t num);
  deleted : option bool;
  message : option string
}.
End PreferenceResponse.

Section PreferenceRoutes.
Context {num : Type} `{JSNumber num}.
Local Open Scope string_scope.

Definition preferenceRoutes_get_userId (store : PreferenceService.Store (num := num))
    (userId : string) : PreferenceResponse.t num * PreferenceService.Store (num := num) :=
  let preferences := PreferenceService.getUserPreferences store userId in
  let (preferences, store) :=
    match preferences with
    | Some found => (found, store)
    | None => PreferenceService.generateDefaultPreferences store userId
    end in
  (PreferenceResponse.mk true (Some preferences) None None, store).

Definition preferenceRoutes_post_userId (store : PreferenceService.Store (num := num))
    (userId : string) (preferencesData : PartialPreferences.t num)
    : PreferenceResponse.t num * PreferenceService.Store (num := num) :=
  let (updatedPreferences, store) :=
    PreferenceService.saveUserPreferences store userId preferencesData in
  (PreferenceResponse.mk true (Some updatedPreferences) None
     (Some "Preferences saved successfully"), store).

Definition preferenceRoutes_delete_userId (store : PreferenceService.Store (num := num))
    (userId : string) : PreferenceResponse.t num * PreferenceService.Store (num := num) :=
  let (deleted, store) := PreferenceService.deleteUserPreferences store userId in
  (PreferenceResponse.mk true None (Some deleted)
     (Some (if deleted then "Preferences deleted successfully"
            else "No preferences found to delete")), store).

(** [GET /] and [POST /] act for the user ['default-user']. *)
Definition preferenceRoutes_get (store : PreferenceService.Store (num := num)) :=
  preferenceRoutes_get_userId store "default-user".

Definition preferenceRoutes_post (store : PreferenceService.Store (num := num))
    (preferencesData : PartialPreferences.t num) :=
  preferenceRoutes_post_userId store "default-user" preferencesData.
End PreferenceRoutes.

(** * Verified properties *)

(** ** The calculators, the route and the filter, over any number implementation *)

Section Structural.
Context {num : Type} `{JSNumber num}.
Local Open Scope string_scope.
Local Open Scope js_scope.
Import MatchingAlgorithm.

Lemma calculateSafetyScore_spec (p : UserPreferences.t num) (n : Neighborhood.t num) :
  MatchingAlgorithm.calculateSafetyScore p n =
  spec_safety n.(Neighborhood.safety).(SafetyMetrics.safetyScore)
              n.(Neighborhood.safety).(SafetyMetrics.crimeRate).
Proof. reflexivity. Qed.

Lemma calculateAffordabilityScore_spec (p : UserPreferences.t num) (n : Neighborhood.t num) :
  MatchingAlgorithm.calculateAffordabilityScore p n =
  spec_affordability n.(Neighborhood.demographics).(Demographics.medianIncome)
                     p.(UserPreferences.budget).(Budget.min)
                     p.(UserPreferences.budget).(Budget.max).
Proof.
  unfold MatchingAlgorithm.calculateAffordabilityScore, spec_affordability.
  cbv zeta.
  rewrite (andb_comm (leb (mul _ _) _)).
  reflexivity.
Qed.

Lemma generatePotentialConcerns_spec (p : UserPreferences.t num) (n : Neighborhood.t num) :
  MatchingAlgorithm.generatePotentialConcerns p n = spec_concerns p n.
Proof.
  unfold MatchingAlgorithm.generatePotentialConcerns, spec_concerns.
  unfold crimeRule, budgetRule, walkabilityRule, push. cbv zeta.
  destruct (ltb _ (SafetyMetrics.crimeRate _));
    destruct (ltb (UserPreferences.budget p).(Budget.max) _);
    destruct (ltb (TransportationInfo.walkabilityScore _) _); reflexivity.
Qed.

Lemma calculateAgeGroupCompatibility_default (s : string) (d : Demographics.t num) :
  isAgeGroup s = false -> calculateAgeGroupCompatibility s d = $50.
Proof.
  unfold isAgeGroup, calculateAgeGroupCompatibility. simpl. intros Hs.
  destruct (s =? "young"); [discriminate|].
  destruct (s =? "family"); [discriminate|].
  destruct (s =? "senior"); [discriminate|].
  destruct (s =? "mixed"); [discriminate|].
  reflexivity.
Qed.

Lemma calculateActivityCompatibility_default (s : string) (l : LifestyleMetrics.t num) :
  isActivityLevel s = false -> calculateActivityCompatibility s l = $50.
Proof.
  unfold isActivityLevel, calculateActivityCompatibility. simpl. intros Hs.
  destruct (s =? "high"); [repeat rewrite orb_true_r in Hs; discriminate|].
  destruct (s =? "medium"); [repeat rewrite orb_true_r in Hs; discriminate|].
  destruct (s =? "low"); [discriminate|].
  reflexivity.
Qed.

Lemma calculateSocialCompatibility_default (s : string) (l : LifestyleMetrics.t num) :
  isSocialPreference s = false -> calculateSocialCompatibility s l = $50.
Proof.
  unfold isSocialPreference, calculateSocialCompatibility. simpl. intros Hs.
  destruct (s =? "extrovert"); [repeat rewrite orb_true_r in Hs; discriminate|].
  destruct (s =? "introvert"); [discriminate|].
  destruct (s =? "balanced"); [repeat rewrite orb_true_r in Hs; discriminate|].
  reflexivity.
Qed.

Lemma matchingRoutes_post_rejects (body : Body.t num) :
  (matchingRoutes_post body).(Response.success) = false <->
  body.(Body.preferences) = None \/ body.(Body.neighborhoods) = None.
Proof.
  unfold matchingRoutes_post.
  destruct (Body.preferences body), (Body.neighborhoods body); simpl;
    split; intros Hx; try discriminate; auto;
    destruct Hx; discriminate.
Qed.





End Structural.

(** ** Binary64 arithmetic *)

Section Binary64.
Import MatchingAlgorithm.
Local Open Scope string_scope.
Local Open Scope js_scope.

Example binary64_cost_of_200000 :
  (($200000 : F64.t) * $0.3)%js = ($60000)%js.
Proof. vm_compute. reflexivity. Qed.

Example binary64_crime_bonus_of_5 :
  (Math_max ($0 : F64.t) (($50 - $5) / $50) * $10)%js = ($9)%js.
Proof. vm_compute. reflexivity. Qed.

(** The instance computes what JavaScript computes:
    [0.1 + 0.2 = 0.30000000000000004], [0.3 * 3 = 0.8999999999999999],
    [Math.round(0.49999999999999994) = 0], [Math.round(-0.5) = -0],
    [1 / 0 = Infinity], [0 / 0 = NaN], [7 / 50 * 100 = 14.000000000000002]. *)
Example binary64_known_values :
  ($0.1 + $0.2 : F64.t) = S754_finite false 5404319552844596 (-54) /\
  ($0.3 : F64.t) = S754_finite false 5404319552844595 (-54) /\
  ($0.3 * $3 : F64.t) = S754_finite false 8106479329266892 (-53) /\
  Math_round ($0.49999999999999994 : F64.t) = S754_zero false /\
  Math_round ($(-0.5) : F64.t) = S754_zero true /\
  ($1 / $0 : F64.t) = F64.Infinity /\
  ($0 / $0 : F64.t) = F64.NaN /\
  ($7 / $50 * $100 : F64.t) = $14.000000000000002.
Proof. vm_compute. repeat split; reflexivity. Qed.

(** Rounding error is visible at a half-integer.  Twenty-nine amenities give
    the sub-score [29 / 50 * 100 = 57.99999999999999]; with seven integer
    sub-scores of sum 314 the exact mean is just below 46.5 and rounds to 46,
    while the running sum of the loop is rounded to 46.5 and the code
    returns 47 (as does the mean computed in binary64). *)
Example binary64_mean_near_a_half :
  let amenities : F64.t := $29 / $50 * $100 in
  let scores (amenities : F64.t) : list (string * F64.t) :=
    [ ("safety", $21); ("amenities", amenities); ("transportation", $47);
      ("lifestyle", $65); ("affordability", $88); ("familyFriendly", $59);
      ("nightlife", $0); ("quietness", $34) ] in
  let exact (amenities : Q) : list (string * Exact.xnum) :=
    [ ("safety", $21); ("amenities", Exact.XFin amenities); ("transportation", $47);
      ("lifestyle", $65); ("affordability", $88); ("familyFriendly", $59);
      ("nightlife", $0); ("quietness", $34) ] in
  F64.to_Q amenities = Some (8162774324609023 # 140737488355328) /\
  MatchingAlgorithm.aggregate (scores amenities) (uniformPriorities $5) = $47 /\
  spec_mean (scores amenities) = $47 /\
  MatchingAlgorithm.aggregate (exact (8162774324609023 # 140737488355328))
    (uniformPriorities $5) = $46.
Proof. vm_compute. repeat split; reflexivity. Qed.

Example binary64_round_ties_up :
  Math_round ($2.5 : F64.t)%js = ($3)%js /\ Math_round ($(-2.5) : F64.t)%js = ($(-2))%js.
Proof. vm_compute. split; reflexivity. Qed.

(** The sample neighborhood has the sub-scores of Scenario B. *)
Lemma downtown_subScores :
  subScores (preferencesWith (uniformPriorities ($5 : F64.t))) (downtown $50 $90) = scenarioB.
Proof. vm_compute. reflexivity. Qed.

(** NaN and the infinities absorb the operations of the scoring code. *)
Lemma add_not_finite_l (a b : F64.t) :
  Number_isFinite a = false -> Number_isFinite (a + b) = false.
Proof.
  destruct a as [s | s | | s m e]; try discriminate; intros _;
    destruct b as [t | t | | t m' e']; try reflexivity;
    destruct s, t; reflexivity.
Qed.

Lemma add_not_finite_r (a b : F64.t) :
  Number_isFinite b = false -> Number_isFinite (a + b) = false.
Proof.
  destruct b as [s | s | | s m e]; try discriminate; intros _;
    destruct a as [t | t | | t m' e']; try reflexivity;
    destruct s, t; reflexivity.
Qed.

Lemma mul_not_finite_l (a b : F64.t) :
  Number_isFinite a = false -> Number_isFinite (a * b) = false.
Proof.
  destruct a as [s | s | | s m e]; try discriminate; intros _;
    destruct b as [t | t | | t m' e']; reflexivity.
Qed.

Lemma div_not_finite_l (a b : F64.t) :
  Number_isFinite a = false -> Number_isFinite (a / b) = false.
Proof.
  destruct a as [s | s | | s m e]; try discriminate; intros _;
    destruct b as [t | t | | t m' e']; reflexivity.
Qed.

Lemma div_by_zero_not_finite (a b : F64.t) :
  F64.is_zero b = true -> Number_isFinite (a / b) = false.
Proof.
  destruct b as [t | t | | t m' e']; try discriminate; intros _;
    destruct a as [s | s | | s m e]; reflexivity.
Qed.

Lemma round_not_finite (a : F64.t) :
  Number_isFinite a = false -> Number_isFinite (Math_round a) = false.
Proof. destruct a; try discriminate; reflexivity. Qed.

Lemma not_finite_out_of_range (x : F64.t) :
  Number_isFinite x = false -> ($0 <=? x) && (x <=? $100) = false.
Proof.
  destruct x as [s | [|] | | s m e]; try discriminate; intros _; reflexivity.
Qed.

Lemma not_finite_not_zero (x : F64.t) :
  Number_isFinite x = false -> x <> $0.
Proof. intros Hx ->. discriminate Hx. Qed.

Lemma calculateAgeGroupCompatibility_zero_population
    (s : string) (d : Demographics.t F64.t) :
  s = "young" \/ s = "family" \/ s = "senior" ->
  F64.is_zero d.(Demographics.totalPopulation) = true ->
  Number_isFinite (calculateAgeGroupCompatibility s d) = false.
Proof.
  intros [-> | [-> | ->]] Hz; unfold calculateAgeGroupCompatibility; cbv zeta;
    cbn [String.eqb Ascii.eqb Bool.eqb];
    apply mul_not_finite_l, div_by_zero_not_finite, Hz.
Qed.

Lemma calculateFamilyFriendlyScore_zero_population
    (p : UserPreferences.t F64.t) (n : Neighborhood.t F64.t) :
  F64.is_zero n.(Neighborhood.demographics).(Demographics.totalPopulation) = true ->
  Number_isFinite (calculateFamilyFriendlyScore p n) = false.
Proof.
  intros Hz. unfold calculateFamilyFriendlyScore. cbv zeta.
  apply round_not_finite, add_not_finite_r, mul_not_finite_l.
  apply div_by_zero_not_finite, Hz.
Qed.

(** The family-friendliness term alone makes the weighted sum NaN or
    infinite, whatever the weights. *)
Lemma calculateCompatibility_zero_population
    (p : UserPreferences.t F64.t) (n : Neighborhood.t F64.t) :
  F64.is_zero n.(Neighborhood.demographics).(Demographics.totalPopulation) = true ->
  Number_isFinite (calculateCompatibility p n) = false.
Proof.
  intros Hz. unfold calculateCompatibility, aggregate, subScores.
  cbn [fold_left].
  apply round_not_finite, add_not_finite_l, add_not_finite_l, add_not_finite_r.
  apply div_not_finite_l, mul_not_finite_l.
  apply calculateFamilyFriendlyScore_zero_population, Hz.
Qed.
End Binary64.

(** ** Exact arithmetic: values of expressions *)

Section ExactArithmetic.
Import Exact.
Local Open Scope Q_scope.

Lemma isQ_XFin (q : Q) : isQ (XFin q) q.
Proof. exists q. split; reflexivity. Qed.

Lemma isQ_fin (q : Q) : isQ (fin q) q.
Proof. exists (Qred q). split; [reflexivity | apply Qred_correct]. Qed.

Lemma isQ_lit (q : Q) : isQ (lit q) q.
Proof. exact (isQ_fin q). Qed.

Lemma isQ_ext (a : xnum) (v w : Q) : isQ a v -> v == w -> isQ a w.
Proof. intros (q & -> & Hq) Hvw. exists q. split; [reflexivity|]. rewrite Hq. exact Hvw. Qed.

Lemma isQ_add (a b : xnum) (x y : Q) :
  isQ a x -> isQ b y -> isQ (add a b) (x + y).
Proof.
  intros (p & -> & Hp) (q & -> & Hq). eapply isQ_ext; [apply isQ_fin|].
  rewrite Hp, Hq. reflexivity.
Qed.

Lemma isQ_sub (a b : xnum) (x y : Q) :
  isQ a x -> isQ b y -> isQ (sub a b) (x - y).
Proof.
  intros (p & -> & Hp) (q & -> & Hq). eapply isQ_ext; [apply isQ_fin|].
  rewrite Hp, Hq. reflexivity.
Qed.

Lemma isQ_mul (a b : xnum) (x y : Q) :
  isQ a x -> isQ b y -> isQ (mul a b) (x * y).
Proof.
  intros (p & -> & Hp) (q & -> & Hq). eapply isQ_ext; [apply isQ_fin|].
  rewrite Hp, Hq. reflexivity.
Qed.

Lemma Qsgn_Eq (q : Q) : Qsgn q = Eq <-> q == 0.
Proof.
  unfold Qsgn. rewrite <- Qeq_alt. split; intros Hq; symmetry; exact Hq.
Qed.

Lemma Qsgn_pos (t : Q) : 0 < t -> Qsgn t = Lt.
Proof. unfold Qsgn. intros Ht. apply Qlt_alt. exact Ht. Qed.

Lemma xdiv_fin (p q : Q) : Qsgn q <> Eq -> xdiv (XFin p) (XFin q) = fin (p / q).
Proof. unfold xdiv. destruct (Qsgn q); congruence. Qed.

Lemma isQ_div (a b : xnum) (x y : Q) :
  isQ a x -> isQ b y -> ~ y == 0 -> isQ (div a b) (x / y).
Proof.
  intros (p & -> & Hp) (q & -> & Hq) Hy.
  assert (Hsgn : Qsgn q <> Eq).
  { rewrite Qsgn_Eq, Hq. exact Hy. }
  change (isQ (xdiv (XFin p) (XFin q)) (x / y)).
  rewrite (@xdiv_fin p q Hsgn).
  eapply isQ_ext; [apply isQ_fin|]. rewrite Hp, Hq. reflexivity.
Qed.

Lemma Qltb_lt (x y : Q) : Qltb x y = true <-> x < y.
Proof.
  unfold Qltb. rewrite negb_true_iff. split.
  - intros Hb. apply Qnot_le_lt. intros Hle.
    apply Qle_bool_iff in Hle. congruence.
  - intros Hlt. destruct (Qle_bool y x) eqn:Hb; [|reflexivity].
    apply Qle_bool_iff in Hb. lra.
Qed.

Lemma leb_isQ (a b : xnum) (x y : Q) :
  isQ a x -> isQ b y -> (leb a b = true <-> x <= y).
Proof.
  intros (p & -> & Hp) (q & -> & Hq).
  change (Qle_bool p q = true <-> x <= y).
  rewrite Qle_bool_iff, Hp, Hq. reflexivity.
Qed.

Lemma ltb_isQ (a b : xnum) (x y : Q) :
  isQ a x -> isQ b y -> (ltb a b = true <-> x < y).
Proof.
  intros (p & -> & Hp) (q & -> & Hq).
  change (Qltb p q = true <-> x < y).
  rewrite Qltb_lt, Hp, Hq. reflexivity.
Qed.

Lemma isQ_min (a b : xnum) (x y : Q) :
  isQ a x -> isQ b y -> isQ (Math_min a b) (Qmin x y).
Proof.
  intros (p & -> & Hp) (q & -> & Hq).
  change (isQ (if Qltb q p then XFin q else XFin p) (Qmin x y)).
  destruct (Qltb q p) eqn:Hb.
  - apply Qltb_lt in Hb. exists q. split; [reflexivity|].
    rewrite Q.min_r; lra.
  - exists p. split; [reflexivity|].
    assert (Hle : p <= q).
    { destruct (Qlt_le_dec q p) as [Hlt|Hle]; [|exact Hle].
      apply Qltb_lt in Hlt. congruence. }
    rewrite Q.min_l; lra.
Qed.

Lemma isQ_max (a b : xnum) (x y : Q) :
  isQ a x -> isQ b y -> isQ (Math_max a b) (Qmax x y).
Proof.
  intros (p & -> & Hp) (q & -> & Hq).
  change (isQ (if Qltb p q then XFin q else XFin p) (Qmax x y)).
  destruct (Qltb p q) eqn:Hb.
  - apply Qltb_lt in Hb. exists q. split; [reflexivity|].
    rewrite Q.max_r; lra.
  - exists p. split; [reflexivity|].
    assert (Hle : q <= p).
    { destruct (Qlt_le_dec p q) as [Hlt|Hle]; [|exact Hle].
      apply Qltb_lt in Hlt. congruence. }
    rewrite Q.max_l; lra.
Qed.

Lemma isQ_round (a : xnum) (x : Q) :
  isQ a x -> isQ (Math_round a) (inject_Z (Qfloor (x + (1 # 2)))).
Proof.
  intros (p & -> & Hp).
  change (isQ (fin (inject_Z (Qfloor (p + (1 # 2))))) (inject_Z (Qfloor (x + (1 # 2))))).
  eapply isQ_ext; [apply isQ_fin|].
  rewrite Hp. reflexivity.
Qed.

Lemma isQ_finBetween (a : xnum) (v lo hi : Q) :
  isQ a v -> lo <= v -> v <= hi -> finBetween lo hi a.
Proof.
  intros (q & -> & Hq) Hlo Hhi. exists q.
  split; [reflexivity | split; rewrite Hq; assumption].
Qed.

Lemma finBetween_isQ (a : xnum) (lo hi : Q) :
  finBetween lo hi a -> exists v, isQ a v /\ lo <= v /\ v <= hi.
Proof.
  intros (q & -> & Hlo & Hhi). exists q. split; [apply isQ_XFin | auto].
Qed.
End ExactArithmetic.

Ltac split_andb :=
  repeat match goal with
         | H : _ && _ = true |- _ => apply andb_true_iff in H; destruct H
         end.

(** Builds the rational value of an expression over finite numbers. *)
Ltac isq :=
  lazymatch goal with
  | |- Exact.isQ (add _ _) _ => apply isQ_add; isq
  | |- Exact.isQ (sub _ _) _ => apply isQ_sub; isq
  | |- Exact.isQ (mul _ _) _ => apply isQ_mul; isq
  | |- Exact.isQ (div _ _) _ => apply isQ_div; [isq | isq | ]
  | |- Exact.isQ (Math_min _ _) _ => apply isQ_min; isq
  | |- Exact.isQ (Math_max _ _) _ => apply isQ_max; isq
  | |- Exact.isQ (Math_round _) _ => apply isQ_round; isq
  | |- Exact.isQ (lit _) _ => apply isQ_lit
  | |- Exact.isQ (Exact.XFin _) _ => apply isQ_XFin
  | |- Exact.isQ _ _ => eassumption
  | |- _ => idtac
  end.

(** A rational constant is not 0. *)
Ltac q_apart :=
  let H := fresh in intro H; vm_compute in H; discriminate H.

(** Division by a constant as a product, for [lra]. *)
Ltac q_div_const :=
  unfold Qdiv;
  repeat match goal with
         | |- context [Qinv (Qmake ?n ?d)] =>
             let r := eval vm_compute in (Qinv (Qmake n d)) in
             change (Qinv (Qmake n d)) with r
         | H : context [Qinv (Qmake ?n ?d)] |- _ =>
             let r := eval vm_compute in (Qinv (Qmake n d)) in
             change (Qinv (Qmake n d)) with r in H
         end.

(** ** Exact arithmetic: the invariants of the data model *)

Section ExactValidity.
Import Exact.
Local Open Scope Q_scope.

Lemma nonNegative_fin (a : xnum) :
  nonNegative a = true -> exists q, a = XFin q /\ 0 <= q.
Proof.
  unfold nonNegative. intros Hv. split_andb.
  destruct a as [| s | q]; try discriminate.
  exists q. split; [reflexivity|].
  apply (proj1 (leb_isQ (isQ_lit 0) (isQ_XFin q))). assumption.
Qed.

Lemma inRange_fin (lo hi : Q) (a : xnum) :
  inRange (lit lo) (lit hi) a = true -> finBetween lo hi a.
Proof.
  unfold inRange. intros Hv. split_andb.
  destruct a as [| s | q]; try discriminate.
  exists q. split; [reflexivity|]. split.
  - apply (proj1 (leb_isQ (isQ_lit lo) (isQ_XFin q))). assumption.
  - apply (proj1 (leb_isQ (isQ_XFin q) (isQ_lit hi))). assumption.
Qed.

(** Rounding an [x] between two integers stays between them. *)
Lemma Qround_range (x : Q) (lo hi : Z) :
  inject_Z lo <= x -> x <= inject_Z hi ->
  (lo <= Qfloor (x + (1 # 2)) <= hi)%Z.
Proof.
  intros Hlo Hhi. split.
  - rewrite <- (Qfloor_Z lo). apply Qfloor_resp_le. lra.
  - apply Z.lt_succ_r. rewrite Zlt_Qlt.
    apply Qle_lt_trans with (x + (1 # 2)); [apply Qfloor_le|].
    unfold Z.succ. rewrite inject_Z_plus. change (inject_Z 1) with 1. lra.
Qed.


Lemma fin_inject_Z (z : Z) : fin (inject_Z z) = XFin (inject_Z z).
Proof.
  unfold fin. f_equal. apply Qred_identity. simpl. apply Z.gcd_1_r.
Qed.

Lemma round_isQ (a : xnum) (x : Q) :
  isQ a x -> Math_round a = XFin (inject_Z (Qfloor (x + (1 # 2)))).
Proof.
  intros (p & -> & Hp).
  change (fin (inject_Z (Qfloor (p + (1 # 2)))) = XFin (inject_Z (Qfloor (x + (1 # 2))))).
  rewrite fin_inject_Z, Hp. reflexivity.
Qed.

(** A rounded value between two integers. *)
Lemma round_finBetween (a : xnum) (x : Q) (lo hi : Z) :
  isQ a x -> inject_Z lo <= x -> x <= inject_Z hi ->
  finBetween (inject_Z lo) (inject_Z hi) (Math_round a).
Proof.
  intros Ha Hlo Hhi. rewrite (round_isQ Ha).
  destruct (Qround_range Hlo Hhi) as [H1 H2].
  exists (inject_Z (Qfloor (x + (1 # 2)))). split; [reflexivity|].
  rewrite <- !Zle_Qle. auto.
Qed.

Lemma Qratio_range (x t : Q) :
  0 <= x -> x <= t -> 0 < t -> 0 <= x / t /\ x / t <= 1.
Proof.
  intros Hx Hxt Ht. split.
  - apply Qle_shift_div_l; lra.
  - apply Qle_shift_div_r; lra.
Qed.

Lemma Qmin_range (c x : Q) : 0 <= c -> 0 <= x -> 0 <= Qmin c x /\ Qmin c x <= c.
Proof. intros Hc Hx. split; [apply Q.min_glb; assumption | apply Q.le_min_l]. Qed.

Lemma Qmax_range (x h : Q) : 0 <= h -> x <= h -> 0 <= Qmax 0 x /\ Qmax 0 x <= h.
Proof. intros Hh Hx. split; [apply Q.le_max_l | apply Q.max_lub; assumption]. Qed.
End ExactValidity.

(** Exposes the fields of the records in the context. *)
Ltac destruct_records :=
  repeat match goal with
         | x : Neighborhood.t _ |- _ => destruct x
         | x : Demographics.t _ |- _ => destruct x
         | x : AgeGroups.t _ |- _ => destruct x
         | x : Amenities.t _ |- _ => destruct x
         | x : SafetyMetrics.t _ |- _ => destruct x
         | x : TransportationInfo.t _ |- _ => destruct x
         | x : LifestyleMetrics.t _ |- _ => destruct x
         | x : UserPreferences.t _ |- _ => destruct x
         | x : Budget.t _ |- _ => destruct x
         | x : Priorities.t _ |- _ => destruct x
         | x : Lifestyle.t |- _ => destruct x
         end.

Ltac js_cbn :=
  cbn -[add sub mul div lit ltb leb Math_min Math_max Math_round ToBoolean
        Number_isFinite nonNegative inRange String.eqb] in *.

(** Turns the checks of the data model into finite fields with bounds. *)
Ltac finite_fields :=
  split_andb;
  repeat match goal with
         | H : nonNegative ?x = true |- _ =>
             apply nonNegative_fin in H;
             let q := fresh "q" in destruct H as (q & -> & ?)
         | H : inRange _ _ ?x = true |- _ =>
             apply inRange_fin in H;
             let q := fresh "q" in destruct H as (q & -> & ? & ?)
         end.

(** Reads a comparison of finite numbers as an order on the rationals. *)
Ltac q_compare H :=
  lazymatch type of H with
  | leb ?a ?b = true =>
      let Ha := fresh in
      let Hb := fresh in
      eassert (Ha : Exact.isQ a _) by isq;
      eassert (Hb : Exact.isQ b _) by isq;
      apply (proj1 (leb_isQ Ha Hb)) in H; clear Ha Hb
  | ltb ?a ?b = true =>
      let Ha := fresh in
      let Hb := fresh in
      eassert (Ha : Exact.isQ a _) by isq;
      eassert (Hb : Exact.isQ b _) by isq;
      apply (proj1 (ltb_isQ Ha Hb)) in H; clear Ha Hb
  end.

(** Names a quotient [x / t] with [0 <= x <= t], [0 < t] as a value in [[0, 1]]. *)
Ltac q_ratio x t :=
  let H := fresh in
  assert (H : (0 <= x / t /\ x / t <= 1)%Q) by (apply Qratio_range; lra);
  destruct H;
  let r := fresh "r" in
  set (r := (x / t)%Q) in *.

Ltac q_ratios :=
  repeat match goal with
         | |- context [(?x / ?t)%Q] => q_ratio x t
         end.

(** ** Exact arithmetic: the range of the sub-scores *)

Section ExactCalculators.
Import Exact MatchingAlgorithm.
Local Open Scope Q_scope.

Lemma calculateSafetyScore_range (p : UserPreferences.t xnum) (n : Neighborhood.t xnum) :
  validSafety n.(Neighborhood.safety) = true ->
  finBetween 0 100 (calculateSafetyScore p n).
Proof.
  unfold validSafety. intros Hv. split_andb.
  match goal with
  | H : nonNegative _ = true |- _ => apply nonNegative_fin in H; destruct H as (cr & Hcr & Hcr0)
  end.
  match goal with
  | H : inRange _ _ _ = true |- _ => apply inRange_fin in H; destruct H as (ss & Hss & Hss0 & Hss1)
  end.
  unfold calculateSafetyScore, MAX_SCORE. cbv zeta. rewrite Hcr, Hss.
  eapply isQ_finBetween; [isq; q_apart | |].
  - apply Q.min_glb; [lra|].
    pose proof (Q.le_max_l 0 ((50 - cr) / 50)). lra.
  - apply Q.le_min_l.
Qed.

Lemma calculateAmenitiesScore_range (p : UserPreferences.t xnum) (n : Neighborhood.t xnum) :
  validAmenities n.(Neighborhood.amenities) = true ->
  finBetween 0 100 (calculateAmenitiesScore p n).
Proof.
  unfold validAmenities, calculateAmenitiesScore, sum_values. intros Hv.
  destruct_records. js_cbn. finite_fields.
  eapply isQ_finBetween; [isq; q_apart | |].
  - apply Q.min_glb; [lra|]. q_div_const. lra.
  - apply Q.le_min_l.
Qed.

Lemma calculateTransportationScore_range
    (p : UserPreferences.t xnum) (n : Neighborhood.t xnum) :
  validTransportation n.(Neighborhood.transportation) = true ->
  finBetween 0 100 (calculateTransportationScore p n).
Proof.
  unfold validTransportation, calculateTransportationScore. intros Hv.
  destruct_records. js_cbn. finite_fields.
  eapply (@round_finBetween _ _ 0 100); [isq | |]; unfold inject_Z; lra.
Qed.

Lemma calculateAgeGroupCompatibility_range (s : string) (d : Demographics.t xnum) :
  validDemographics d = true ->
  ltb (lit 0) d.(Demographics.totalPopulation) = true ->
  finBetween 0 100 (calculateAgeGroupCompatibility s d).
Proof.
  unfold validDemographics, validAgeGroups, calculateAgeGroupCompatibility.
  intros Hv Hpop. destruct_records. js_cbn. finite_fields.
  q_compare Hpop.
  match goal with H : leb _ _ = true |- _ => q_compare H end.
  destruct (s =? "young")%string;
    [|destruct (s =? "family")%string;
      [|destruct (s =? "senior")%string;
        [|destruct (s =? "mixed")%string]]];
    (eapply isQ_finBetween; [isq; intro; lra | |]); q_ratios; lra.
Qed.

Lemma calculateActivityCompatibility_range (s : string) (l : LifestyleMetrics.t xnum) :
  validLifestyleMetrics l = true ->
  finBetween 0 100 (calculateActivityCompatibility s l).
Proof.
  unfold validLifestyleMetrics, calculateActivityCompatibility.
  intros Hv. destruct_records. js_cbn. finite_fields.
  destruct (s =? "high")%string;
    [|destruct (s =? "medium")%string; [|destruct (s =? "low")%string]];
    try (eapply (@round_finBetween _ _ 0 100); [isq; q_apart | |];
         unfold inject_Z; q_div_const; lra).
  eapply isQ_finBetween; [isq | |]; lra.
Qed.

Lemma calculateSocialCompatibility_range (s : string) (l : LifestyleMetrics.t xnum) :
  validLifestyleMetrics l = true ->
  finBetween 0 100 (calculateSocialCompatibility s l).
Proof.
  unfold validLifestyleMetrics, calculateSocialCompatibility.
  intros Hv. destruct_records. js_cbn. finite_fields.
  destruct (s =? "extrovert")%string;
    [|destruct (s =? "introvert")%string; [|destruct (s =? "balanced")%string]];
    try (eapply (@round_finBetween _ _ 0 100); [isq; q_apart | |];
         unfold inject_Z; q_div_const; lra).
  eapply isQ_finBetween; [isq | |]; lra.
Qed.

Lemma calculateLifestyleScore_range
    (p : UserPreferences.t xnum) (n : Neighborhood.t xnum) :
  validDemographics n.(Neighborhood.demographics) = true ->
  validLifestyleMetrics n.(Neighborhood.lifestyle) = true ->
  ltb (lit 0) n.(Neighborhood.demographics).(Demographics.totalPopulation) = true ->
  finBetween 0 100 (calculateLifestyleScore p n).
Proof.
  intros Hd Hl Hpop. unfold calculateLifestyleScore. cbv zeta.
  destruct (calculateAgeGroupCompatibility_range
              p.(UserPreferences.lifestyle).(Lifestyle.ageGroup) _ Hd Hpop)
    as (a & -> & ? & ?).
  destruct (calculateActivityCompatibility_range
              p.(UserPreferences.lifestyle).(Lifestyle.activityLevel) _ Hl)
    as (b & -> & ? & ?).
  destruct (calculateSocialCompatibility_range
              p.(UserPreferences.lifestyle).(Lifestyle.socialPreference) _ Hl)
    as (c & -> & ? & ?).
  eapply (@round_finBetween _ _ 0 100); [isq | |]; unfold inject_Z; lra.
Qed.

Lemma calculateAffordabilityScore_range
    (p : UserPreferences.t xnum) (n : Neighborhood.t xnum) :
  finBetween 0 100 (calculateAffordabilityScore p n).
Proof.
  unfold calculateAffordabilityScore. cbv zeta.
  repeat match goal with
         | |- context [if ?c then _ else _] => destruct c
         end;
    (eapply isQ_finBetween; [apply isQ_lit | |]); lra.
Qed.

Lemma calculateFamilyFriendlyScore_range
    (p : UserPreferences.t xnum) (n : Neighborhood.t xnum) :
  validDemographics n.(Neighborhood.demographics) = true ->
  validAmenities n.(Neighborhood.amenities) = true ->
  validLifestyleMetrics n.(Neighborhood.lifestyle) = true ->
  ltb (lit 0) n.(Neighborhood.demographics).(Demographics.totalPopulation) = true ->
  finBetween 0 100 (calculateFamilyFriendlyScore p n).
Proof.
  unfold validDemographics, validAgeGroups, validAmenities, validLifestyleMetrics,
    calculateFamilyFriendlyScore.
  intros Hd Ha Hl Hpop. destruct_records. js_cbn. finite_fields.
  q_compare Hpop.
  match goal with H : leb _ _ = true |- _ => q_compare H end.
  eapply (@round_finBetween _ _ 0 100); [isq; intro; lra | |]; unfold inject_Z;
    q_ratios;
    repeat match goal with
           | |- context [Qmin 25 ?x] =>
               let H := fresh in
               assert (H : 0 <= Qmin 25 x /\ Qmin 25 x <= 25)
                 by (apply Qmin_range; lra);
               destruct H; set (Qmin 25 x) in *
           end;
    lra.
Qed.

Lemma calculateNightlifeScore_range
    (p : UserPreferences.t xnum) (n : Neighborhood.t xnum) :
  validAmenities n.(Neighborhood.amenities) = true ->
  validLifestyleMetrics n.(Neighborhood.lifestyle) = true ->
  finBetween 0 100 (calculateNightlifeScore p n).
Proof.
  unfold validAmenities, validLifestyleMetrics, calculateNightlifeScore.
  intros Ha Hl. destruct_records. js_cbn. finite_fields.
  eapply (@round_finBetween _ _ 0 100); [isq | |]; unfold inject_Z;
    match goal with
    | |- context [Qmin 40 ?x] =>
        let H := fresh in
        assert (H : 0 <= Qmin 40 x /\ Qmin 40 x <= 40)
          by (apply Qmin_range; lra);
        destruct H; set (Qmin 40 x) in *
    end;
    lra.
Qed.

Lemma calculateQuietnessScore_range
    (p : UserPreferences.t xnum) (n : Neighborhood.t xnum) :
  validAmenities n.(Neighborhood.amenities) = true ->
  validLifestyleMetrics n.(Neighborhood.lifestyle) = true ->
  finBetween 0 100 (calculateQuietnessScore p n).
Proof.
  unfold validAmenities, validLifestyleMetrics, calculateQuietnessScore.
  intros Ha Hl. destruct_records. js_cbn. finite_fields.
  eapply (@round_finBetween _ _ 0 100); [isq; q_apart | |]; unfold inject_Z;
    match goal with
    | |- context [Qmax 0 ?x] =>
        let H := fresh in
        assert (H : 0 <= Qmax 0 x /\ Qmax 0 x <= 100)
          by (apply Qmax_range; [lra | q_div_const; lra]);
        destruct H; set (Qmax 0 x) in *
    end;
    lra.
Qed.

(** On a valid neighborhood with residents, the eight sub-scores are finite
    and within [[0, 100]]. *)
Lemma subScores_range (p : UserPreferences.t xnum) (n : Neighborhood.t xnum) :
  validNeighborhood n = true ->
  ltb (lit 0) n.(Neighborhood.demographics).(Demographics.totalPopulation) = true ->
  exists s1 s2 s3 s4 s5 s6 s7 s8 : Q,
    subScores p n =
    [ ("safety", XFin s1); ("amenities", XFin s2); ("transportation", XFin s3);
      ("lifestyle", XFin s4); ("affordability", XFin s5); ("familyFriendly", XFin s6);
      ("nightlife", XFin s7); ("quietness", XFin s8) ]%string /\
    calculateSafetyScore p n = XFin s1 /\
    (0 <= s1 <= 100) /\ (0 <= s2 <= 100) /\ (0 <= s3 <= 100) /\ (0 <= s4 <= 100) /\
    (0 <= s5 <= 100) /\ (0 <= s6 <= 100) /\ (0 <= s7 <= 100) /\ (0 <= s8 <= 100).
Proof.
  unfold validNeighborhood. intros Hv Hpop. split_andb.
  destruct (@calculateSafetyScore_range p n) as (s1 & E1 & ? & ?); [assumption|].
  destruct (@calculateAmenitiesScore_range p n) as (s2 & E2 & ? & ?); [assumption|].
  destruct (@calculateTransportationScore_range p n) as (s3 & E3 & ? & ?); [assumption|].
  destruct (@calculateLifestyleScore_range p n) as (s4 & E4 & ? & ?); [assumption..|].
  destruct (@calculateAffordabilityScore_range p n) as (s5 & E5 & ? & ?).
  destruct (@calculateFamilyFriendlyScore_range p n) as (s6 & E6 & ? & ?); [assumption..|].
  destruct (@calculateNightlifeScore_range p n) as (s7 & E7 & ? & ?); [assumption..|].
  destruct (@calculateQuietnessScore_range p n) as (s8 & E8 & ? & ?); [assumption..|].
  exists s1, s2, s3, s4, s5, s6, s7, s8.
  unfold subScores. rewrite E1, E2, E3, E4, E5, E6, E7, E8.
  repeat split; assumption.
Qed.
End ExactCalculators.

Section ExactSafety.
Import Exact MatchingAlgorithm.
Local Open Scope js_scope.

End ExactSafety.

(** ** Exact arithmetic: the weighted aggregate *)

Section ExactAggregate.
Import Exact MatchingAlgorithm.
Local Open Scope Q_scope.

Lemma validPriority_fin (w : option xnum) :
  validPriority w = true -> exists q, w = Some (XFin q) /\ 1 <= q /\ q <= 10.
Proof.
  destruct w as [v|]; [|discriminate]. simpl. intros Hv.
  destruct (inRange_fin _ _ _ Hv) as (q & -> & H1 & H10).
  exists q. auto.
Qed.

(** Priorities that are all present and within 1-10. *)
Lemma validPriorities_fin (w : Priorities.t xnum) :
  validPriorities w = true ->
  exists w1 w2 w3 w4 w5 w6 w7 w8 : Q,
    w = Priorities.mk (Some (XFin w1)) (Some (XFin w2)) (Some (XFin w3)) (Some (XFin w4))
                      (Some (XFin w5)) (Some (XFin w6)) (Some (XFin w7)) (Some (XFin w8)) /\
    0 < w1 /\ 0 < w2 /\ 0 < w3 /\ 0 < w4 /\ 0 < w5 /\ 0 < w6 /\ 0 < w7 /\ 0 < w8.
Proof.
  unfold validPriorities. intros Hv. destruct w. cbn [Priorities.safety
    Priorities.amenities Priorities.transportation Priorities.lifestyle
    Priorities.affordability Priorities.familyFriendly Priorities.nightlife
    Priorities.quietness] in Hv.
  split_andb.
  repeat match goal with
         | H : validPriority _ = true |- _ =>
             apply validPriority_fin in H; destruct H as (? & -> & ? & ?)
         end.
  do 8 eexists. split; [reflexivity|]. repeat split; lra.
Qed.

Lemma or_else_fin (q : Q) (d : xnum) : 0 < q -> or_else (Some (XFin q)) d = XFin q.
Proof.
  intros Hq. unfold or_else.
  change (ToBoolean (XFin q)) with (negb (Qeq_bool q 0)).
  destruct (Qeq_bool q 0) eqn:Hb; [|reflexivity].
  apply Qeq_bool_eq in Hb. lra.
Qed.

Lemma weighted_term_range (s w T : Q) :
  0 <= s -> s <= 100 -> 0 <= w -> 0 < T ->
  0 <= s * w / T /\ s * w / T <= 100 * (w / T).
Proof.
  intros Hs0 Hs1 Hw HT.
  assert (Hb : 0 <= w / T) by (apply Qle_shift_div_l; lra).
  assert (He : s * w / T == s * (w / T)) by (unfold Qdiv; ring).
  rewrite He. set (b := w / T) in *. split; nra.
Qed.


Lemma weights_sum_to_one (w1 w2 w3 w4 w5 w6 w7 w8 T : Q) :
  T == 0 + w1 + w2 + w3 + w4 + w5 + w6 + w7 + w8 ->
  0 < T ->
  w1 / T + w2 / T + w3 / T + w4 / T + w5 / T + w6 / T + w7 / T + w8 / T == 1.
Proof.
  intros HT Hpos. field_simplify_eq; [rewrite HT; ring | intro; lra].
Qed.

Lemma weightedMean_range (s1 s2 s3 s4 s5 s6 s7 s8 w1 w2 w3 w4 w5 w6 w7 w8 : Q) :
  0 <= s1 <= 100 -> 0 <= s2 <= 100 -> 0 <= s3 <= 100 -> 0 <= s4 <= 100 ->
  0 <= s5 <= 100 -> 0 <= s6 <= 100 -> 0 <= s7 <= 100 -> 0 <= s8 <= 100 ->
  0 < w1 -> 0 < w2 -> 0 < w3 -> 0 < w4 -> 0 < w5 -> 0 < w6 -> 0 < w7 -> 0 < w8 ->
  0 <= weightedMean s1 s2 s3 s4 s5 s6 s7 s8 w1 w2 w3 w4 w5 w6 w7 w8 <= 100.
Proof.
  intros [] [] [] [] [] [] [] [] ? ? ? ? ? ? ? ?. unfold weightedMean. cbv zeta.
  set (T := 0 + w1 + w2 + w3 + w4 + w5 + w6 + w7 + w8).
  assert (HT : 0 < T) by (unfold T; lra).
  assert (Hone : w1 / T + w2 / T + w3 / T + w4 / T + w5 / T + w6 / T + w7 / T + w8 / T == 1)
    by (apply weights_sum_to_one; [reflexivity | exact HT]).
  destruct (@weighted_term_range s1 w1 T ltac:(lra) ltac:(lra) ltac:(lra) HT) as [? ?].
  destruct (@weighted_term_range s2 w2 T ltac:(lra) ltac:(lra) ltac:(lra) HT) as [? ?].
  destruct (@weighted_term_range s3 w3 T ltac:(lra) ltac:(lra) ltac:(lra) HT) as [? ?].
  destruct (@weighted_term_range s4 w4 T ltac:(lra) ltac:(lra) ltac:(lra) HT) as [? ?].
  destruct (@weighted_term_range s5 w5 T ltac:(lra) ltac:(lra) ltac:(lra) HT) as [? ?].
  destruct (@weighted_term_range s6 w6 T ltac:(lra) ltac:(lra) ltac:(lra) HT) as [? ?].
  destruct (@weighted_term_range s7 w7 T ltac:(lra) ltac:(lra) ltac:(lra) HT) as [? ?].
  destruct (@weighted_term_range s8 w8 T ltac:(lra) ltac:(lra) ltac:(lra) HT) as [? ?].
  lra.
Qed.


(** The value of the aggregation loop on finite scores and weights. *)
Lemma aggregate_value
    (a1 a2 a3 a4 a5 a6 a7 a8 : xnum) (s1 s2 s3 s4 s5 s6 s7 s8 : Q)
    (w1 w2 w3 w4 w5 w6 w7 w8 : Q) :
  isQ a1 s1 -> isQ a2 s2 -> isQ a3 s3 -> isQ a4 s4 ->
  isQ a5 s5 -> isQ a6 s6 -> isQ a7 s7 -> isQ a8 s8 ->
  0 < w1 -> 0 < w2 -> 0 < w3 -> 0 < w4 -> 0 < w5 -> 0 < w6 -> 0 < w7 -> 0 < w8 ->
  aggregate
    [ ("safety", a1); ("amenities", a2); ("transportation", a3); ("lifestyle", a4);
      ("affordability", a5); ("familyFriendly", a6); ("nightlife", a7);
      ("quietness", a8) ]%string
    (Priorities.mk (Some (XFin w1)) (Some (XFin w2)) (Some (XFin w3)) (Some (XFin w4))
                   (Some (XFin w5)) (Some (XFin w6)) (Some (XFin w7)) (Some (XFin w8)))
  = XFin (inject_Z (Qfloor
      (weightedMean s1 s2 s3 s4 s5 s6 s7 s8 w1 w2 w3 w4 w5 w6 w7 w8 + (1 # 2)))).
Proof.
  intros ? ? ? ? ? ? ? ? ? ? ? ? ? ? ? ?.
  match goal with |- _ = ?r => set (value := r) end.
  unfold aggregate.
  cbn -[add sub mul div lit ltb leb Math_min Math_max Math_round ToBoolean
        Number_isFinite or_else].
  rewrite !or_else_fin by assumption.
  subst value. apply round_isQ. unfold weightedMean. cbv zeta. isq; intro; lra.
Qed.

(** For valid input and a neighborhood with residents, the overall score
    is an integer within [[0, 100]]. *)
Lemma calculateCompatibility_range (p : UserPreferences.t xnum) (n : Neighborhood.t xnum) :
  validPriorities p.(UserPreferences.priorities) = true ->
  validNeighborhood n = true ->
  ltb (lit 0) n.(Neighborhood.demographics).(Demographics.totalPopulation) = true ->
  exists z : Z,
    calculateCompatibility p n = XFin (inject_Z z) /\ (0 <= z <= 100)%Z.
Proof.
  intros Hw Hv Hpop. unfold calculateCompatibility.
  destruct (@subScores_range p n Hv Hpop)
    as (s1 & s2 & s3 & s4 & s5 & s6 & s7 & s8 & -> & _ & ? & ? & ? & ? & ? & ? & ? & ?).
  destruct (@validPriorities_fin _ Hw)
    as (w1 & w2 & w3 & w4 & w5 & w6 & w7 & w8 & -> & ? & ? & ? & ? & ? & ? & ? & ?).
  rewrite (@aggregate_value _ _ _ _ _ _ _ _ s1 s2 s3 s4 s5 s6 s7 s8)
    by (assumption || apply isQ_XFin).
  eexists. split; [reflexivity|].
  apply Qround_range; unfold inject_Z;
    apply weightedMean_range; assumption.
Qed.
End ExactAggregate.

(** ** Exact arithmetic: sums of quotients, special values included *)

Section ExactMean.
Import Exact MatchingAlgorithm.
Local Open Scope Q_scope.

Lemma xeq_refl (a : xnum) : xeq a a.
Proof. destruct a; simpl; [exact I | reflexivity | reflexivity]. Qed.

Lemma xeq_sym (a b : xnum) : xeq a b -> xeq b a.
Proof. destruct a, b; simpl; try easy; intros Hq; symmetry; exact Hq. Qed.

Lemma xeq_trans (a b c : xnum) : xeq a b -> xeq b c -> xeq a c.
Proof.
  destruct a, b, c; simpl; try easy; try congruence;
    intros H1 H2; rewrite H1; exact H2.
Qed.

Lemma isQ_xeq (a b : xnum) (v w : Q) : isQ a v -> isQ b w -> v == w -> xeq a b.
Proof.
  intros (p & -> & Hp) (q & -> & Hq) Hvw. simpl. rewrite Hp, Hq. exact Hvw.
Qed.

Lemma xeq_isQ (a b : xnum) (v : Q) : xeq a b -> isQ a v -> isQ b v.
Proof.
  intros Hab (p & -> & Hp). destruct b as [| s | q]; simpl in Hab; try easy.
  exists q. split; [reflexivity|]. rewrite <- Hab. exact Hp.
Qed.

Lemma xadd_xeq (a a' b b' : xnum) :
  xeq a a' -> xeq b b' -> xeq (add a b) (add a' b').
Proof.
  intros Ha Hb.
  destruct a as [| s | x], a' as [| t | x'], b as [| u | y], b' as [| v | y'];
    simpl in Ha, Hb; try easy; subst;
    try solve [eapply isQ_xeq; [isq | isq | rewrite Ha, Hb; reflexivity]];
    cbn; try destruct (Bool.eqb _ _); easy.
Qed.

Lemma xround_xeq (a b : xnum) : xeq a b -> Math_round a = Math_round b.
Proof.
  intros Hab. destruct a as [| s | x], b as [| t | y]; simpl in Hab; try easy.
  - rewrite Hab. reflexivity.
  - rewrite (round_isQ (isQ_XFin x)), (round_isQ (isQ_XFin y)), Hab. reflexivity.
Qed.

(** Division by a positive finite number distributes over the sum, special
    values included. *)
Lemma div_add_distr (a b : xnum) (t : Q) :
  0 < t -> xeq (div (add a b) (XFin t)) (add (div a (XFin t)) (div b (XFin t))).
Proof.
  intros Ht. pose proof (Qsgn_pos Ht) as Hs.
  destruct a as [| s | x], b as [| s' | y];
    try solve [eapply isQ_xeq; [isq; intro; lra | isq; intro; lra | field; intro; lra]];
    unfold div, add, Exact.number, xdiv, xadd; rewrite ?Hs;
    try destruct s; try destruct s'; simpl; rewrite ?Hs; easy.
Qed.






(** The loop adds up [score * weight / t]; dividing the sum of the products
    by [t] gives the same value. *)
Lemma weighted_loop (weight : string -> xnum) (t : Q)
    (scores : list (string * xnum)) (acc acc' : xnum) :
  0 < t ->
  xeq acc (div acc' (XFin t)) ->
  xeq (fold_left
         (fun weightedScore (entry : string * xnum) =>
            let (category, score) := entry in
            add weightedScore (div (mul score (weight category)) (XFin t)))
         scores acc)
      (div (fold_left (fun sum value => add sum value)
              (List.map (fun entry : string * xnum => mul (snd entry) (weight (fst entry)))
                 scores)
              acc')
           (XFin t)).
Proof.
  intros Ht. revert acc acc'.
  induction scores as [| [category score] scores IH]; intros acc acc' Hacc; [exact Hacc|].
  cbn [fold_left List.map snd fst]. apply IH.
  eapply xeq_trans; [|apply xeq_sym, div_add_distr, Ht].
  apply xadd_xeq; [exact Hacc | apply xeq_refl].
Qed.

(** When the eight priorities are present and within 1-10, no weight is
    defaulted, the total weight is the sum of the weights used, and the
    code computes the formula of the specification. *)
Lemma aggregate_spec_valid (scores : list (string * xnum)) (w : Priorities.t xnum) :
  validPriorities w = true -> aggregate scores w = spec_aggregate scores w.
Proof.
  intros Hw.
  destruct (@validPriorities_fin _ Hw)
    as (w1 & w2 & w3 & w4 & w5 & w6 & w7 & w8 & -> & ? & ? & ? & ? & ? & ? & ? & ?).
  unfold aggregate, spec_aggregate, sum_values.
  set (weights := Priorities.mk _ _ _ _ _ _ _ _).
  assert (HT : exists t,
             0 < t /\
             fold_left (fun sum weight : xnum => add sum weight)
               (Priorities.Object_values weights) (lit 0) = XFin t /\
             fold_left (fun sum value : xnum => add sum value)
               (List.map (defaultedWeight weights) categories) (lit 0) = XFin t).
  { assert (Hv : isQ (add (add (add (add (add (add (add (add (lit 0) (XFin w1)) (XFin w2))
                       (XFin w3)) (XFin w4)) (XFin w5)) (XFin w6)) (XFin w7)) (XFin w8))
                     (0 + w1 + w2 + w3 + w4 + w5 + w6 + w7 + w8)) by isq.
    destruct Hv as (t & Et & Ht). exists t. split; [lra|].
    split; [exact Et|].
    unfold categories, defaultedWeight, weights.
    cbn -[add sub mul div lit ltb leb Math_min Math_max Math_round ToBoolean
          Number_isFinite or_else].
    rewrite !or_else_fin by assumption. exact Et. }
  destruct HT as (t & Ht & -> & ->).
  apply xround_xeq. apply (@weighted_loop (defaultedWeight weights) t); [exact Ht|].
  eapply isQ_xeq; [isq | isq; intro; lra | unfold Qdiv; ring].
Qed.
End ExactMean.

(** * The claims *)

Section Claims.
Import Exact MatchingAlgorithm.
Local Open Scope string_scope.
Local Open Scope js_scope.

(** C1: with [priorities.safety = 0] (or absent) and the seven other
    priorities 5, the loop weighs every sub-score by 5, but [totalWeight] is
    the sum of the raw values, 35 and not 40: on the sub-scores of
    Scenario B the code returns [round(2600 / 35) = 74] where the claimed
    formula gives [round(2600 / 40) = 65] (binary64).  When the eight
    priorities are present and within 1-10 nothing is defaulted and the code
    computes the claimed formula (exact arithmetic). *)
Theorem C1_total_weight_is_not_defaulted :
  (let n : Neighborhood.t F64.t := downtown $50 $90 in
   let zero : UserPreferences.t F64.t := preferencesWith (safetyPriority $0 $5) in
   let absent : UserPreferences.t F64.t :=
     preferencesWith
       (Priorities.mk None (Some $5) (Some $5) (Some $5) (Some $5) (Some $5) (Some $5) (Some $5)) in
   subScores zero n = scenarioB /\
   calculateCompatibility zero n = $74 /\
   spec_aggregate (subScores zero n) zero.(UserPreferences.priorities) = $65 /\
   calculateCompatibility absent n = $74 /\
   spec_aggregate (subScores absent n) absent.(UserPreferences.priorities) = $65) /\
  (forall (p : UserPreferences.t xnum) (n : Neighborhood.t xnum),
      validPriorities p.(UserPreferences.priorities) = true ->
      calculateCompatibility p n =
      spec_aggregate (subScores p n) p.(UserPreferences.priorities)).
Proof.
  split.
  - vm_compute. repeat split; reflexivity.
  - intros p n Hw. apply aggregate_spec_valid, Hw.
Qed.

Lemma C1_total_weight_is_not_defaulted_witness :
  let p : UserPreferences.t xnum := preferencesWith (safetyPriority $1 $10) in
  let n : Neighborhood.t xnum := downtown $50 $90 in
  validPriorities p.(UserPreferences.priorities) = true /\
  calculateCompatibility p n =
  spec_aggregate (subScores p n) p.(UserPreferences.priorities).
Proof.
  intros p n. split; [reflexivity|].
  apply (proj2 C1_total_weight_is_not_defaulted). reflexivity.
Defined.

(** C2: in binary64 arithmetic, whenever the total population is 0 (a value
    the data model allows) the overall score is NaN or infinite, hence not
    within [[0, 100]]; the empty sample neighborhood, with uniform priorities,
    meets every invariant of the data model and its overall score is NaN. *)
Theorem C2_score_of_empty_neighborhood_is_out_of_range :
  (forall (p : UserPreferences.t F64.t) (n : Neighborhood.t F64.t),
      F64.is_zero n.(Neighborhood.demographics).(Demographics.totalPopulation) = true ->
      ($0 <=? calculateCompatibility p n) && (calculateCompatibility p n <=? $100) = false) /\
  (let p : UserPreferences.t F64.t := preferencesWith (uniformPriorities $5) in
   let n : Neighborhood.t F64.t := emptyDowntown in
   validPreferences p = true /\ validNeighborhood n = true /\
   n.(Neighborhood.demographics).(Demographics.totalPopulation) = $0 /\
   calculateCompatibility p n = F64.NaN).
Proof.
  split.
  - intros p n Hz.
    apply not_finite_out_of_range, calculateCompatibility_zero_population, Hz.
  - vm_compute. repeat split; reflexivity.
Qed.

Lemma C2_score_of_empty_neighborhood_is_out_of_range_witness :
  let p : UserPreferences.t F64.t := preferencesWith (uniformPriorities $5) in
  let n : Neighborhood.t F64.t := emptyDowntown in
  F64.is_zero n.(Neighborhood.demographics).(Demographics.totalPopulation) = true /\
  ($0 <=? calculateCompatibility p n) && (calculateCompatibility p n <=? $100) = false.
Proof.
  intros p n. split; [reflexivity|].
  apply (proj1 C2_score_of_empty_neighborhood_is_out_of_range). reflexivity.
Defined.

(** C3: in binary64 arithmetic, whenever the total population is 0 the
    divisions by the population yield NaN or an infinity, never 0: the
    age-group compatibility of the groups young, family and senior, the
    family-friendliness score and the overall score are not finite numbers;
    on the empty sample neighborhood, where the quotients are [0 / 0], all of
    them are NaN. *)
Theorem C3_zero_population_divisions_are_not_guarded :
  (forall (p : UserPreferences.t F64.t) (n : Neighborhood.t F64.t),
      F64.is_zero n.(Neighborhood.demographics).(Demographics.totalPopulation) = true ->
      (forall s : string,
          s = "young" \/ s = "family" \/ s = "senior" ->
          Number_isFinite
            (calculateAgeGroupCompatibility s n.(Neighborhood.demographics)) = false /\
          calculateAgeGroupCompatibility s n.(Neighborhood.demographics) <> $0) /\
      Number_isFinite (calculateFamilyFriendlyScore p n) = false /\
      calculateFamilyFriendlyScore p n <> $0 /\
      Number_isFinite (calculateCompatibility p n) = false) /\
  (let p : UserPreferences.t F64.t := preferencesWith (uniformPriorities $5) in
   let n : Neighborhood.t F64.t := emptyDowntown in
   n.(Neighborhood.demographics).(Demographics.totalPopulation) = $0 /\
   calculateAgeGroupCompatibility "young" n.(Neighborhood.demographics) = F64.NaN /\
   calculateAgeGroupCompatibility "family" n.(Neighborhood.demographics) = F64.NaN /\
   calculateAgeGroupCompatibility "senior" n.(Neighborhood.demographics) = F64.NaN /\
   calculateFamilyFriendlyScore p n = F64.NaN /\
   calculateCompatibility p n = F64.NaN).
Proof.
  split.
  - intros p n Hz. split; [|split; [|split]].
    + intros s Hs.
      pose proof (calculateAgeGroupCompatibility_zero_population _ Hs Hz) as Hnf.
      split; [exact Hnf | apply not_finite_not_zero, Hnf].
    + apply calculateFamilyFriendlyScore_zero_population, Hz.
    + apply not_finite_not_zero, calculateFamilyFriendlyScore_zero_population, Hz.
    + apply calculateCompatibility_zero_population, Hz.
  - vm_compute. repeat split; reflexivity.
Qed.

Lemma C3_zero_population_divisions_are_not_guarded_witness :
  let p : UserPreferences.t F64.t := preferencesWith (uniformPriorities $5) in
  let n : Neighborhood.t F64.t := emptyDowntown in
  F64.is_zero n.(Neighborhood.demographics).(Demographics.totalPopulation) = true /\
  ("young" = "young" \/ "young" = "family" \/ "young" = "senior") /\
  Number_isFinite (calculateAgeGroupCompatibility "young" n.(Neighborhood.demographics))
    = false /\
  Number_isFinite (calculateFamilyFriendlyScore p n) = false /\
  Number_isFinite (calculateCompatibility p n) = false.
Proof.
  intros p n. split; [reflexivity|]. split; [left; reflexivity|].
  destruct (proj1 C3_zero_population_divisions_are_not_guarded p n)
    as (Hage & Hfamily & _ & Hoverall); [reflexivity|].
  split; [apply (Hage "young"); left; reflexivity|].
  split; [exact Hfamily | exact Hoverall].
Defined.




(** C5: the safety sub-score is
    [min(100, safetyScore + max(0, (50 - crimeRate) / 50) * 10)] for every
    preferences/neighborhood pair, over any number implementation; in
    binary64 arithmetic (and in exact arithmetic) a neighborhood with
    [safetyScore = 90] and [crimeRate = 5] scores exactly 99, whatever the
    preferences. *)
Theorem C5_safety_score :
  (forall (num : Type) (N : JSNumber num)
          (p : UserPreferences.t num) (n : Neighborhood.t num),
      calculateSafetyScore p n =
      spec_safety n.(Neighborhood.safety).(SafetyMetrics.safetyScore)
                  n.(Neighborhood.safety).(SafetyMetrics.crimeRate)) /\
  (forall (p : UserPreferences.t F64.t) (n : Neighborhood.t F64.t),
      n.(Neighborhood.safety).(SafetyMetrics.safetyScore) = $90 ->
      n.(Neighborhood.safety).(SafetyMetrics.crimeRate) = $5 ->
      calculateSafetyScore p n = $99) /\
  (forall (p : UserPreferences.t Exact.xnum) (n : Neighborhood.t Exact.xnum),
      n.(Neighborhood.safety).(SafetyMetrics.safetyScore) = $90 ->
      n.(Neighborhood.safety).(SafetyMetrics.crimeRate) = $5 ->
      calculateSafetyScore p n = $99).
Proof.
  split; [intros; apply calculateSafetyScore_spec|].
  split; intros p n Hs Hc; rewrite calculateSafetyScore_spec, Hs, Hc;
    vm_compute; reflexivity.
Qed.

Lemma C5_safety_score_witness :
  ((downtown ($5 : F64.t) $90).(Neighborhood.safety).(SafetyMetrics.safetyScore) = $90 /\
   (downtown ($5 : F64.t) $90).(Neighborhood.safety).(SafetyMetrics.crimeRate) = $5 /\
   calculateSafetyScore (preferencesWith (uniformPriorities $5)) (downtown ($5 : F64.t) $90)
     = $99) /\
  ((downtown ($5 : xnum) $90).(Neighborhood.safety).(SafetyMetrics.safetyScore) = $90 /\
   (downtown ($5 : xnum) $90).(Neighborhood.safety).(SafetyMetrics.crimeRate) = $5 /\
   calculateSafetyScore (preferencesWith (uniformPriorities $5)) (downtown ($5 : xnum) $90)
     = $99).
Proof.
  split; (split; [reflexivity|]; split; [reflexivity|]).
  - apply (proj1 (proj2 C5_safety_score)); reflexivity.
  - apply (proj2 (proj2 C5_safety_score)); reflexivity.
Defined.




(** C7: the affordability sub-score is 100 when [medianIncome * 0.3] lies in
    [[budget.min, budget.max]], else 80 when it is at most
    [budget.max * 1.2], else 50 when it is at most [budget.max * 1.5], else
    20, over any number implementation; in binary64 arithmetic
    [200000 * 0.3] is exactly 60000, the [budget.max] of the budget
    [{min: 40000, max: 60000}], and the sub-score is 100. *)
Theorem C7_affordability_score :
  (forall (num : Type) (N : JSNumber num)
          (p : UserPreferences.t num) (n : Neighborhood.t num),
      calculateAffordabilityScore p n =
      spec_affordability n.(Neighborhood.demographics).(Demographics.medianIncome)
                         p.(UserPreferences.budget).(Budget.min)
                         p.(UserPreferences.budget).(Budget.max)) /\
  (forall (p : UserPreferences.t F64.t) (n : Neighborhood.t F64.t),
      n.(Neighborhood.demographics).(Demographics.medianIncome) = $200000 ->
      p.(UserPreferences.budget) = Budget.mk $40000 $60000 ->
      n.(Neighborhood.demographics).(Demographics.medianIncome) * $0.3
        = p.(UserPreferences.budget).(Budget.max) /\
      calculateAffordabilityScore p n = $100).
Proof.
  split; [intros; apply calculateAffordabilityScore_spec|].
  intros p n Hi Hb. rewrite calculateAffordabilityScore_spec, Hi, Hb.
  split; vm_compute; reflexivity.
Qed.

Lemma C7_affordability_score_witness :
  let p : UserPreferences.t F64.t := preferencesWith (uniformPriorities $5) in
  let n : Neighborhood.t F64.t := downtown $50 $90 in
  n.(Neighborhood.demographics).(Demographics.medianIncome) = $200000 /\
  p.(UserPreferences.budget) = Budget.mk $40000 $60000 /\
  n.(Neighborhood.demographics).(Demographics.medianIncome) * $0.3
    = p.(UserPreferences.budget).(Budget.max) /\
  calculateAffordabilityScore p n = $100.
Proof.
  intros p n. split; [reflexivity|]. split; [reflexivity|].
  apply (proj2 C7_affordability_score); reflexivity.
Defined.

(** C8: over any number implementation the concerns list is the crime
    string if [crimeRate > 30], then the budget string if
    [medianIncome * 0.3 > budget.max], then the walkability string if
    [walkabilityScore < 30]; each string is in the list exactly when its own
    rule holds; and for each of the eight subsets of the rules some input
    (in binary64 arithmetic) makes exactly that subset fire. *)
Theorem C8_potential_concerns :
  (forall (num : Type) (N : JSNumber num)
          (p : UserPreferences.t num) (n : Neighborhood.t num),
      generatePotentialConcerns p n = spec_concerns p n /\
      (generateMatchingResult p n).(MatchingResult.potentialConcerns) = spec_concerns p n /\
      (In crimeConcern (generatePotentialConcerns p n) <-> crimeRule n = true) /\
      (In budgetConcern (generatePotentialConcerns p n) <-> budgetRule p n = true) /\
      (In walkabilityConcern (generatePotentialConcerns p n)
         <-> walkabilityRule n = true)) /\
  (forall crime budget walkability : bool,
      let (p, n) := concernsInput (num := F64.t) crime budget walkability in
      crimeRule n = crime /\ budgetRule p n = budget /\
      walkabilityRule n = walkability).
Proof.
  split.
  - intros num N p n. cbn [generateMatchingResult MatchingResult.potentialConcerns].
    rewrite generatePotentialConcerns_spec.
    split; [reflexivity|]. split; [reflexivity|].
    unfold spec_concerns, crimeConcern, budgetConcern, walkabilityConcern.
    destruct (crimeRule n), (budgetRule p n), (walkabilityRule n); simpl;
      repeat split; intros Hin;
      repeat match goal with
             | Hx : _ \/ _ |- _ => destruct Hx
             | Hx : False |- _ => destruct Hx
             end;
      try discriminate; try reflexivity; auto.
  - intros [|] [|] [|]; vm_compute; repeat split; reflexivity.
Qed.

(** C9, as stated, fails: a request whose lifestyle profile has three
    malformed enum values is answered with status 200 and a full result,
    the overall score 65. *)
Lemma C9_malformed_enums_are_scored :
  let p : UserPreferences.t F64.t :=
    mkPreferences (Budget.mk $40000 $60000) (uniformPriorities $5) malformedLifestyle in
  let response := matchingRoutes_post (Body.mk (Some p) (Some [downtown $50 $90])) in
  isAgeGroup p.(UserPreferences.lifestyle).(Lifestyle.ageGroup) = false /\
  isActivityLevel p.(UserPreferences.lifestyle).(Lifestyle.activityLevel) = false /\
  isSocialPreference p.(UserPreferences.lifestyle).(Lifestyle.socialPreference) = false /\
  response.(Response.status) = 200%nat /\
  response.(Response.success) = true /\
  response.(Response.error) = None /\
  option_map (List.map (@MatchingResult.compatibilityScore F64.t)) response.(Response.data)
    = Some [$65].
Proof. vm_compute. repeat split; reflexivity. Qed.

(** C9 (amended): the route validates no enum.  It rejects a request only
    when [preferences] or [neighborhoods] is missing; otherwise it answers
    200 with one result per neighborhood, and a lifestyle field outside its
    string set makes the compatibility that reads it the neutral value 50
    (the [default] branches), the rest of the score being computed as
    usual. *)
Theorem C9_malformed_enums_fall_back_to_50 :
  forall (num : Type) (N : JSNumber num),
    (forall (p : UserPreferences.t num) (ns : list (Neighborhood.t num)),
        matchingRoutes_post (Body.mk (Some p) (Some ns)) =
        Response.mk 200 true (Some (List.map (generateMatchingResult p) ns)) None) /\
    (forall body : Body.t num,
        (matchingRoutes_post body).(Response.success) = false <->
        body.(Body.preferences) = None \/ body.(Body.neighborhoods) = None) /\
    (forall (s : string) (d : Demographics.t num),
        isAgeGroup s = false -> calculateAgeGroupCompatibility s d = $50) /\
    (forall (s : string) (l : LifestyleMetrics.t num),
        isActivityLevel s = false -> calculateActivityCompatibility s l = $50) /\
    (forall (s : string) (l : LifestyleMetrics.t num),
        isSocialPreference s = false -> calculateSocialCompatibility s l = $50).
Proof.
  intros num N. split; [reflexivity|].
  split; [apply matchingRoutes_post_rejects|].
  split; [apply calculateAgeGroupCompatibility_default|].
  split; [apply calculateActivityCompatibility_default
         |apply calculateSocialCompatibility_default].
Qed.

Lemma C9_malformed_enums_fall_back_to_50_witness :
  (isAgeGroup "toddler" = false /\
   calculateAgeGroupCompatibility "toddler"
     (downtownDemographics ($0 : F64.t) (AgeGroups.mk $0 $0 $0 $0 $0)) = $50) /\
  (isActivityLevel "extreme" = false /\
   calculateActivityCompatibility "extreme" (downtownLifestyle (num := F64.t)) = $50) /\
  (isSocialPreference "hermit" = false /\
   calculateSocialCompatibility "hermit" (downtownLifestyle (num := F64.t)) = $50).
Proof.
  pose proof (C9_malformed_enums_fall_back_to_50 F64.number)
    as (_ & _ & Hage & Hactivity & Hsocial).
  split; [|split]; (split; [reflexivity|]).
  - apply Hage. reflexivity.
  - apply Hactivity. reflexivity.
  - apply Hsocial. reflexivity.
Defined.


End Claims.
